(** * qudi-core: the Jupyter kernel's remote-namespace synchronisation

    A shallow embedding of [src/qudi/core/qudikernel.py]:
    - [QudiKernelService]   (connection-lifecycle hooks),
    - [QudiKernelClient]    (the connection to the namespace server),
    - [QudiIPythonKernel]   (reconciliation of the shell namespace),
    - [install_kernel], [uninstall_kernel] and the entry point.

    Python objects are records, methods are computations in a state and
    exception monad over the receiver ([self]), and the collaborators that
    live outside the file (rpyc, the configuration loader, the IPython
    shell) are an explicit environment whose answers are quantified over. *)

From stdpp Require Import gmap strings list fin_maps fin_sets.
From Stdlib Require Import ZArith.

Local Open Scope Z_scope.

(** ** Python exceptions *)

(** Exception classes, with single inheritance.  The built-in part of the
    hierarchy is the one of CPython; [UserClass] is any other class, derived
    from [base]. *)
Inductive exc_class : Type :=
  | BaseException
  | Exception
  | KeyboardInterrupt
  | SystemExit
  | AttributeError
  | EOFError
  | KeyError
  | ValueError
  | OSError
  | TimeoutError
  | ConnectionError
  | BrokenPipeError
  | ConnectionAbortedError
  | ConnectionRefusedError
  | ConnectionResetError
  | UserClass (name : string) (base : exc_class).

#[global] Instance exc_class_eq_dec : EqDecision exc_class.
Proof. solve_decision. Defined.

(** Method resolution order of a class: the class, then its ancestors. *)
Fixpoint mro (c : exc_class) : list exc_class :=
  match c with
  | BaseException => [BaseException]
  | Exception => [Exception; BaseException]
  | KeyboardInterrupt => [KeyboardInterrupt; BaseException]
  | SystemExit => [SystemExit; BaseException]
  | AttributeError => [AttributeError; Exception; BaseException]
  | EOFError => [EOFError; Exception; BaseException]
  | KeyError => [KeyError; Exception; BaseException]
  | ValueError => [ValueError; Exception; BaseException]
  | OSError => [OSError; Exception; BaseException]
  | TimeoutError => [TimeoutError; OSError; Exception; BaseException]
  | ConnectionError => [ConnectionError; OSError; Exception; BaseException]
  | BrokenPipeError =>
      [BrokenPipeError; ConnectionError; OSError; Exception; BaseException]
  | ConnectionAbortedError =>
      [ConnectionAbortedError; ConnectionError; OSError; Exception; BaseException]
  | ConnectionRefusedError =>
      [ConnectionRefusedError; ConnectionError; OSError; Exception; BaseException]
  | ConnectionResetError =>
      [ConnectionResetError; ConnectionError; OSError; Exception; BaseException]
  | UserClass name base => UserClass name base :: mro base
  end.

(** [isinstance e c]: an exception of class [e] is matched by [except c]. *)
Definition isinstance (e c : exc_class) : bool := bool_decide (c ∈ mro e).

(** The outcome of a Python call: a value, or a raised exception. *)
Inductive result (A : Type) : Type :=
  | Return (a : A)
  | Raise (e : exc_class).
Arguments Return {A} a.
Arguments Raise {A} e.

(** ** Objects of the transport and of the configuration *)

(** Values of the [config] bag handed to [rpyc.connect]. *)
Inductive cfg_value : Type :=
  | CBool (b : bool)
  | CInt (z : Z).

(** An rpyc connection object: where it leads, how it was configured, and
    its [closed] flag. *)
Record Connection : Type := {
  conn_host : string;
  conn_port : Z;
  conn_config : list (string * cfg_value);
  closed : bool
}.

(** [rpyc.BgServingThread(conn)]: the background receiver of a connection. *)
Record BgServingThread : Type := { bg_conn : Connection }.

(** Modelled from the spec: the class [qudi.core.config.Configuration] is
    imported by the source but is not part of it.  Section 6 of the spec
    gives the loaded configuration a [namespace_server_port] integer field,
    the one field that the source reads. *)
Record Configuration : Type := {
  namespace_server_port : Z
}.

(** What happens outside the Python objects, in the order it happens. *)
Inductive event : Type :=
  | EvLog (msg : string)
  | EvStartReceiver (conn : Connection)
  | EvStopReceiver (bg : BgServingThread)
  | EvRemoteQuery (conn : Connection)
  | EvClose (conn : Connection)
  | EvLoadConfig (path : string) (set_default : bool)
  | EvConnect (host : string) (port : Z)
  | EvSuperExecute
  | EvSuperShutdown (restart : bool).

(** State that is not held by an object of this file: the persisted
    "saved configuration" marker of the configuration collaborator and the
    trace of external events. *)
Record Sys : Type := {
  saved_config : option string;
  trace : list event
}.

Definition emit (ev : event) (y : Sys) : Sys :=
  {| saved_config := saved_config y; trace := trace y ++ [ev] |}.

Definition set_saved_config (p : option string) (y : Sys) : Sys :=
  {| saved_config := p; trace := trace y |}.

(** ** The state and exception monad

    A method body is a function from the receiver and the outside state to
    an outcome and the two states afterwards.  A raised exception keeps the
    mutations made before it, as in Python. *)
Definition M (St A : Type) : Type := St → Sys → result A * St * Sys.

Definition ret {St A} (a : A) : M St A := λ s y, (Return a, s, y).

Definition raise {St A} (e : exc_class) : M St A := λ s y, (Raise e, s, y).

Definition bind {St A B} (m : M St A) (k : A → M St B) : M St B :=
  λ s y,
    match m s y with
    | (Return a, s1, y1) => k a s1 y1
    | (Raise e, s1, y1) => (Raise e, s1, y1)
    end.

Declare Scope py_scope.
Delimit Scope py_scope with py.
Notation "x <- m ;; k" := (bind m (λ x, k))
  (at level 100, m at next level, right associativity) : py_scope.
Notation "m ;; k" := (bind m (λ _, k))
  (at level 100, right associativity) : py_scope.
Local Open Scope py_scope.

Definition get {St} : M St St := λ s y, (Return s, s, y).
Definition put {St} (s : St) : M St unit := λ _ y, (Return tt, s, y).
Definition external {St} (ev : event) : M St unit := λ s y, (Return tt, s, emit ev y).
Definition of_result {St A} (r : result A) : M St A := λ s y, (r, s, y).

(** [try: body  except <classes matched by handles>: handler]. *)
Definition try_except {St A} (body : M St A) (handles : exc_class → bool)
    (handler : M St A) : M St A :=
  λ s y,
    match body s y with
    | (Return a, s1, y1) => (Return a, s1, y1)
    | (Raise e, s1, y1) =>
        if handles e then handler s1 y1 else (Raise e, s1, y1)
    end.

(** A bare [except:] matches every exception. *)
Definition bare_except : exc_class → bool := λ _, true.

(** [try: body  finally: final]: [final] runs on both exits; an exception of
    [body] is raised again after it unless [final] raises itself. *)
Definition try_finally {St A} (body : M St A) (final : M St unit) : M St A :=
  λ s y,
    match body s y with
    | (r, s1, y1) =>
        match final s1 y1 with
        | (Return _, s2, y2) => (r, s2, y2)
        | (Raise e, s2, y2) => (Raise e, s2, y2)
        end
    end.

(** [for x in xs: body x]. *)
Fixpoint for_each {St A} (xs : list A) (body : A → M St unit) : M St unit :=
  match xs with
  | [] => ret tt
  | x :: xs' => body x ;; for_each xs' body
  end.

(** Running a method of an attribute object: [sel] reads the attribute of
    the receiver, [upd] stores the attribute's state back. *)
Definition on_attr {St T A} (sel : St → T) (upd : T → St → St) (m : M T A) : M St A :=
  λ s y,
    match m (sel s) y with
    | (r, t1, y1) => (r, upd t1 s, y1)
    end.

(** [logging.warning(msg)]. *)
Definition logging_warning {St} (msg : string) : M St unit := external (EvLog msg).

Section Kernel.

(** References to remote objects: the values bound in the namespace. *)
Context {V : Type}.

(** ** The collaborators

    The answers of the code outside the file.  They are not fixed: every
    statement below quantifies over the environment.  The calls that the
    transport makes into the hooks of the service are part of the model of
    [rpyc.connect] and of [conn.close()] below. *)
Record Env : Type := {
  (** [BgServingThread.stop()] *)
  stop_outcome : BgServingThread → result unit;
  (** [conn.root.get_namespace_dict()] *)
  namespace_dict_outcome : Connection → result (gmap string V);
  (** [conn.close()] *)
  close_outcome : Connection → result unit;
  (** [rpyc.connect(host, port, ...)]: [None] when the link is established,
      the exception otherwise *)
  connect_failure : string → Z → option exc_class;
  (** [Configuration.get_default_config()] *)
  default_config : string;
  (** what loading the file at a path yields *)
  config_file : string → result Configuration;
  (** the namespace left by the engine's own [do_execute] *)
  engine_execute : gmap string V → gmap string V
}.

Variable env : Env.

(** ** QudiKernelService *)

Record QudiKernelService : Type := {
  _background_server : option BgServingThread
}.

(** [QudiKernelService.__init__] *)
Definition QudiKernelService_init : QudiKernelService :=
  {| _background_server := None |}.

Definition set_background_server (b : option BgServingThread)
    : M QudiKernelService unit :=
  put {| _background_server := b |}.

(** [rpyc.BgServingThread(conn)] *)
Definition BgServingThread_new {St} (conn : Connection) : M St BgServingThread :=
  external (EvStartReceiver conn) ;; ret {| bg_conn := conn |}.

(** [self._background_server.stop()]; on [None] the attribute lookup
    raises [AttributeError]. *)
Definition background_server_stop : M QudiKernelService unit :=
  self <- get ;;
  match _background_server self with
  | None => raise AttributeError
  | Some bg => external (EvStopReceiver bg) ;; of_result (stop_outcome env bg)
  end.

Definition on_connect (conn : Connection) : M QudiKernelService unit :=
  logging_warning "Qudi IPython kernel connected to local module service." ;;
  bg <- BgServingThread_new conn ;;
  set_background_server (Some bg).

Definition on_disconnect (conn : Connection) : M QudiKernelService unit :=
  logging_warning "Qudi IPython kernel disconnected from local module service." ;;
  try_finally
    (try_except background_server_stop bare_except (ret tt))
    (set_background_server None).

(** ** QudiKernelClient *)

Record QudiKernelClient : Type := {
  service_instance : QudiKernelService;
  connection : option Connection
}.

(** [QudiKernelClient.__init__] *)
Definition QudiKernelClient_init : QudiKernelClient :=
  {| service_instance := QudiKernelService_init; connection := None |}.

Definition set_connection (c : option Connection) : M QudiKernelClient unit :=
  self <- get ;;
  put {| service_instance := service_instance self; connection := c |}.

Definition set_service_instance (service : QudiKernelService)
    (self : QudiKernelClient) : QudiKernelClient :=
  {| service_instance := service; connection := connection self |}.

(** A hook of [self.service_instance], which is the [service] given to
    [rpyc.connect]: the transport calls it on the service of the client. *)
Definition service_hook {A} (m : M QudiKernelService A) : M QudiKernelClient A :=
  on_attr service_instance set_service_instance m.

(** [conn.close()]: the transport runs the [on_disconnect] hook of the
    service, and the call returns or raises. *)
Definition connection_close (conn : Connection) : M QudiKernelClient unit :=
  external (EvClose conn) ;;
  service_hook (on_disconnect conn) ;;
  of_result (close_outcome env conn).

(** [conn.root.get_namespace_dict()] *)
Definition root_get_namespace_dict (conn : Connection)
    : M QudiKernelClient (gmap string V) :=
  external (EvRemoteQuery conn) ;; of_result (namespace_dict_outcome env conn).

Definition disconnect : M QudiKernelClient unit :=
  self <- get ;;
  match connection self with
  | Some conn =>
      try_finally
        (try_except (connection_close conn) bare_except (ret tt))
        (set_connection None)
  | None => ret tt
  end.

(** The clause [except (ConnectionError, EOFError)]. *)
Definition connection_lost (e : exc_class) : bool :=
  isinstance e ConnectionError || isinstance e EOFError.

Definition get_active_modules : M QudiKernelClient (gmap string V) :=
  self <- get ;;
  match connection self with
  | None => ret ∅
  | Some conn =>
      if closed conn then ret ∅
      else
        try_except (root_get_namespace_dict conn) connection_lost
          (disconnect ;; ret ∅)
  end.

(** [Configuration.get_saved_config()] *)
Definition get_saved_config {St} : M St (option string) :=
  λ s y, (Return (saved_config y), s, y).

(** [Configuration.get_default_config()] *)
Definition get_default_config {St} : M St string := ret (default_config env).

(** Modelled from the spec: [Configuration.load_config] is not in the
    source.  It loads the file at [file_path]; the persisted marker of the
    active configuration is rewritten only when [set_default] is set. *)
Definition load_config {St} (file_path : string) (set_default : bool)
    : M St Configuration :=
  external (EvLoadConfig file_path set_default) ;;
  config <- of_result (config_file env file_path) ;;
  (if set_default
   then (λ s y, (Return tt, s, set_saved_config (Some file_path) y))
   else ret tt) ;;
  ret config.

(** The [config] argument of [rpyc.connect]. *)
Definition connect_config : list (string * cfg_value) :=
  [("allow_all_attrs", CBool true);
   ("allow_setattr", CBool true);
   ("allow_delattr", CBool true);
   ("allow_pickle", CBool true);
   ("sync_request_timeout", CInt 3600)].

(** [rpyc.connect(host=..., config=..., port=..., service=self.service_instance)]:
    when the link is established, the transport runs the [on_connect] hook
    of the service on the new connection and returns the connection; when
    it is not, the exception is raised before any hook. *)
Definition rpyc_connect (host : string) (config : list (string * cfg_value))
    (port : Z) : M QudiKernelClient Connection :=
  external (EvConnect host port) ;;
  match connect_failure env host port with
  | Some e => raise e
  | None =>
      let conn := {| conn_host := host; conn_port := port;
                     conn_config := config; closed := false |} in
      service_hook (on_connect conn) ;;
      ret conn
  end.

(** [config = Configuration()] followed by [config.load_config(...)] is the
    one step [load_config], which yields the loaded configuration. *)
Definition connect : M QudiKernelClient unit :=
  config_path <- get_saved_config ;;
  config_path <- match config_path with
                 | None => get_default_config
                 | Some p => ret p
                 end ;;
  config <- load_config config_path false ;;
  let port := namespace_server_port config in
  conn <- rpyc_connect "localhost" connect_config port ;;
  set_connection (Some conn).

(** ** QudiIPythonKernel *)

Record QudiIPythonKernel : Type := {
  _qudi_client : QudiKernelClient;
  _namespace_qudi_modules : gset string;
  (** [self.shell.user_ns] *)
  user_ns : gmap string V
}.

Definition set_qudi_client (c : QudiKernelClient) (self : QudiIPythonKernel)
    : QudiIPythonKernel :=
  {| _qudi_client := c;
     _namespace_qudi_modules := _namespace_qudi_modules self;
     user_ns := user_ns self |}.

Definition set_user_ns (ns : gmap string V) (self : QudiIPythonKernel)
    : QudiIPythonKernel :=
  {| _qudi_client := _qudi_client self;
     _namespace_qudi_modules := _namespace_qudi_modules self;
     user_ns := ns |}.

Definition set_namespace_qudi_modules (t : gset string) (self : QudiIPythonKernel)
    : QudiIPythonKernel :=
  {| _qudi_client := _qudi_client self;
     _namespace_qudi_modules := t;
     user_ns := user_ns self |}.

(** A method of [self._qudi_client] run from the kernel. *)
Definition qudi_client {A} (m : M QudiKernelClient A) : M QudiIPythonKernel A :=
  on_attr _qudi_client set_qudi_client m.

(** [self.shell.user_ns.pop(mod, None)] *)
Definition user_ns_pop (mod_ : string) : M QudiIPythonKernel unit :=
  self <- get ;; put (set_user_ns (delete mod_ (user_ns self)) self).

(** [self.shell.push(modules)]: every entry of [modules] is bound in the
    namespace, over a binding of the same name. *)
Definition shell_push (modules : gmap string V) : M QudiIPythonKernel unit :=
  self <- get ;; put (set_user_ns (modules ∪ user_ns self) self).

Definition update_module_namespace : M QudiIPythonKernel unit :=
  modules <- qudi_client get_active_modules ;;
  self <- get ;;
  let removed := _namespace_qudi_modules self ∖ dom modules in
  for_each (elements removed) user_ns_pop ;;
  shell_push modules ;;
  self <- get ;;
  put (set_namespace_qudi_modules (dom modules) self).

(** [super().do_execute(...)]: the engine runs the submitted work. *)
Definition super_do_execute : M QudiIPythonKernel unit :=
  external EvSuperExecute ;;
  self <- get ;; put (set_user_ns (engine_execute env (user_ns self)) self).

Definition do_execute : M QudiIPythonKernel unit :=
  update_module_namespace ;;
  super_do_execute.

Definition do_shutdown (restart : bool) : M QudiIPythonKernel unit :=
  qudi_client disconnect ;;
  external (EvSuperShutdown restart).

End Kernel.

(** ** Reading the result of a run *)

Definition outcome {St A} (r : result A * St * Sys) : result A := r.1.1.
Definition receiver {St A} (r : result A * St * Sys) : St := r.1.2.
Definition outside {St A} (r : result A * St * Sys) : Sys := r.2.

(** The host/port pair that [connect] resolves from a loaded
    configuration (lines 127-128): the port is the configuration's
    [namespace_server_port]; the host is the literal of the call. *)
Definition resolved_endpoint (config : Configuration) : string * Z :=
  ("localhost", namespace_server_port config).

(** The path that [connect] loads: the saved one if there is one, the
    default one otherwise. *)
Definition resolved_config_path {V} (env : @Env V) (y : Sys) : string :=
  default (default_config env) (saved_config y).

(** The namespace after one reconciliation against [modules]: the loop of
    [pop]s over the removed names, then the [push]. *)
Definition reconciled {V} (modules : gmap string V) (tracked : gset string)
    (ns : gmap string V) : gmap string V :=
  modules ∪ foldl (λ ns name, delete name ns) ns (elements (tracked ∖ dom modules)).

(** ** A concrete session, for the scenario of the spec *)

Module Scenario.

Definition link : Connection :=
  {| conn_host := "localhost"; conn_port := 18861;
     conn_config := connect_config; closed := false |}.

Definition closed_link : Connection :=
  {| conn_host := "localhost"; conn_port := 18861;
     conn_config := connect_config; closed := true |}.

Definition snapshot : gmap string Z := {[ "b" := 20; "d" := 40 ]}.

Definition lab_config : Configuration :=
  {| namespace_server_port := 18861 |}.

(** A server that answers with [snapshot]; stopping the receiver and
    closing the link both fail. *)
Definition serving : @Env Z :=
  {| stop_outcome := λ _, Raise (UserClass "ThreadError" Exception);
     namespace_dict_outcome := λ _, Return snapshot;
     close_outcome := λ _, Raise EOFError;
     connect_failure := λ _ _, None;
     default_config := "default.cfg";
     config_file := λ _, Return lab_config;
     engine_execute := λ ns, ns |}.

(** A server whose every answer is the exception [e]. *)
Definition failing (e : exc_class) : @Env Z :=
  {| stop_outcome := λ _, Raise e;
     namespace_dict_outcome := λ _, Raise e;
     close_outcome := λ _, Raise e;
     connect_failure := λ _ _, Some e;
     default_config := "default.cfg";
     config_file := λ _, Return lab_config;
     engine_execute := λ ns, ns |}.

Definition client_with (conn : option Connection) : QudiKernelClient :=
  {| service_instance := QudiKernelService_init; connection := conn |}.

Definition kernel_with (conn : option Connection) (tracked : gset string)
    (ns : gmap string Z) : @QudiIPythonKernel Z :=
  {| _qudi_client := client_with conn;
     _namespace_qudi_modules := tracked;
     user_ns := ns |}.

(** TrackedNameSet = {a, b}; the namespace binds a=1, b=2 and the user's
    own c=3. *)
Definition kernel0 : @QudiIPythonKernel Z :=
  kernel_with (Some link) {[ "a"; "b" ]} {[ "a" := 1; "b" := 2; "c" := 3 ]}.

(** TrackedNameSet = {a, b} while the namespace no longer binds a, and no
    connection. *)
Definition kernel_stale : @QudiIPythonKernel Z :=
  kernel_with None {[ "a"; "b" ]} {[ "b" := 2; "c" := 3 ]}.

(** A service whose receiver is running on [link]. *)
Definition receiver_of_link : BgServingThread := {| bg_conn := link |}.

Definition service_running : QudiKernelService :=
  {| _background_server := Some receiver_of_link |}.

Definition sys0 : Sys := {| saved_config := None; trace := [] |}.

Definition sys_saved : Sys := {| saved_config := Some "saved.cfg"; trace := [] |}.

End Scenario.

(** ** The installer and the entry point *)

(** [try: body  except <handles>: handler  else: orelse]: [orelse] runs
    when [body] returns, and an exception it raises is not caught. *)
Definition try_except_else {St A B} (body : M St A) (handles : exc_class → bool)
    (handler : M St B) (orelse : M St B) : M St B :=
  λ s y,
    match body s y with
    | (Return _, s1, y1) => orelse s1 y1
    | (Raise e, s1, y1) =>
        if handles e then handler s1 y1 else (Raise e, s1, y1)
    end.

(** Reading a local variable that was never assigned. *)
Definition UnboundLocalError : exc_class :=
  UserClass "UnboundLocalError" (UserClass "NameError" Exception).

(** [from ... import ...] of a module that is missing. *)
Definition ImportError : exc_class := UserClass "ImportError" Exception.

(** The double quote character of the printed messages. *)
Definition dquote : string := String (Ascii.ascii_of_nat 34) EmptyString.

(** The dictionary written to [kernel.json]. *)
Record kernel_dict : Type := {
  argv : list string;
  display_name : string;
  language : string
}.

(** The calls that the module-level functions make into the host: the file
    system, the kernelspec registry of jupyter_client, the kernel
    application. *)
Inductive host_call : Type :=
  | CallMkdtemp (suffix : string)
  | CallMkdir (path : string)
  | CallDumpJson (path : string) (content : kernel_dict) (indent : Z)
  | CallInstallKernelSpec (source_dir : string) (kernel_name : string) (user : bool)
  | CallRemoveKernelSpec (kernel_name : string)
  | CallRmtree (path : string)
  | CallLaunchInstance.

#[global] Instance kernel_dict_eq_dec : EqDecision kernel_dict.
Proof. solve_decision. Defined.

#[global] Instance host_call_eq_dec : EqDecision host_call.
Proof. solve_decision. Defined.

(** The host as the functions see it: what was printed, and the calls made,
    both in order. *)
Record Host : Type := {
  stdout : list string;
  calls : list host_call
}.

(** The answers of the host. *)
Record HostEnv : Type := {
  (** [sys.executable] *)
  sys_executable : string;
  (** [os.path.abspath(__file__)] *)
  kernel_file : string;
  (** [os.path.join] *)
  path_join : string → string → string;
  (** [from jupyter_client.kernelspec import KernelSpecManager] *)
  import_kernelspec_outcome : result unit;
  (** [from ipykernel.kernelapp import IPKernelApp] *)
  import_kernelapp_outcome : result unit;
  (** [tempfile.mkdtemp(suffix=...)] *)
  mkdtemp_outcome : string → result string;
  (** [os.mkdir(path)] *)
  mkdir_outcome : string → result unit;
  (** the [with open(path, 'w')] block around [json.dump] *)
  dump_json_outcome : string → result unit;
  (** [KernelSpecManager().install_kernel_spec(path, ...)] *)
  install_kernel_spec_outcome : string → result string;
  (** [KernelSpecManager().remove_kernel_spec(name)] *)
  remove_kernel_spec_outcome : string → result string;
  (** [os.path.isdir(path)] at the time of the [finally] clause *)
  isdir : string → bool;
  (** [shutil.rmtree(path)] *)
  rmtree_outcome : string → result unit;
  (** [IPKernelApp.launch_instance(...)] *)
  launch_instance_outcome : result unit
}.

(** [print(msg)] *)
Definition print (msg : string) : M Host unit :=
  λ h y, (Return tt, {| stdout := stdout h ++ [msg]; calls := calls h |}, y).

(** A call into the host, with the answer [r]. *)
Definition host {A} (c : host_call) (r : result A) : M Host A :=
  λ h y, (r, {| stdout := stdout h; calls := calls h ++ [c] |}, y).

(** The frame of [install_kernel]: the host, and the local [tempdir], which
    the [finally] clause reads and which is unassigned until [mkdtemp] has
    returned. *)
Record install_frame : Type := {
  frame_host : Host;
  tempdir : option string
}.

Definition in_host {A} (m : M Host A) : M install_frame A :=
  on_attr frame_host (λ h f, {| frame_host := h; tempdir := tempdir f |}) m.

Definition assign_tempdir (d : string) : M install_frame unit :=
  f <- get ;; put {| frame_host := frame_host f; tempdir := Some d |}.

Definition read_tempdir : M install_frame string :=
  f <- get ;;
  match tempdir f with
  | Some d => ret d
  | None => raise UnboundLocalError
  end.

Section Installer.

Variable henv : HostEnv.

Definition installed_message (dest : string) : string :=
  "> Successfully installed kernelspec " ++ dquote ++ "qudi" ++ dquote
  ++ " in " ++ dest.

Definition install_kernel_frame : M install_frame unit :=
  in_host (print "> Installing qudi kernel...") ;;
  try_finally
    (d <- in_host (host (CallMkdtemp "_kernels") (mkdtemp_outcome henv "_kernels")) ;;
     assign_tempdir d ;;
     let path := path_join henv d "qudi" in
     let kernel_path := kernel_file henv in
     in_host (host (CallMkdir path) (mkdir_outcome henv path)) ;;
     let kernel_dict :=
       {| argv := [sys_executable henv; kernel_path; "-f"; "{connection_file}"];
          display_name := "qudi";
          language := "python" |} in
     let json_path := path_join henv path "kernel.json" in
     in_host (host (CallDumpJson json_path kernel_dict 1)
                (dump_json_outcome henv json_path)) ;;
     dest <- in_host (host (CallInstallKernelSpec path "qudi" true)
                        (install_kernel_spec_outcome henv path)) ;;
     in_host (print (installed_message dest)))
    (d <- read_tempdir ;;
     if isdir henv d
     then in_host (host (CallRmtree d) (rmtree_outcome henv d))
     else ret tt).

Definition install_kernel : M Host unit :=
  of_result (import_kernelspec_outcome henv) ;;
  on_attr (λ h, {| frame_host := h; tempdir := None |}) (λ f _, frame_host f)
    install_kernel_frame.

Definition uninstall_kernel : M Host unit :=
  of_result (import_kernelspec_outcome henv) ;;
  print "> Uninstalling qudi kernel..." ;;
  try_except_else
    (host (CallRemoveKernelSpec "qudi") (remove_kernel_spec_outcome henv "qudi"))
    (λ e, isinstance e KeyError)
    (print ("> No kernelspec " ++ dquote ++ "qudi" ++ dquote ++ " found"))
    (print ("> Successfully uninstalled kernelspec " ++ dquote ++ "qudi" ++ dquote)).

(** The body of [if __name__ == '__main__'], on [sys.argv]. *)
Definition main (sys_argv : list string) : M Host unit :=
  if bool_decide (length sys_argv = 2%nat)
     && bool_decide (sys_argv !! 1%nat = Some "install")
  then install_kernel
  else if bool_decide (length sys_argv = 2%nat)
          && bool_decide (sys_argv !! 1%nat = Some "uninstall")
  then uninstall_kernel
  else
    of_result (import_kernelapp_outcome henv) ;;
    host CallLaunchInstance (launch_instance_outcome henv).

End Installer.

(** ** Construction of the kernel *)

(** The three traits that [QudiIPythonKernel.__init__] sets on
    [self.config]. *)
Record KernelConfig : Type := {
  IPCompleter_use_jedi : bool;
  PlainTextFormatter_pprint : bool;
  BaseFormatter_enabled : bool
}.

(** A constructed kernel: its state, with the traits. *)
Record KernelObject {V : Type} : Type := {
  kernel : @QudiIPythonKernel V;
  config : KernelConfig
}.

Section KernelInit.

Context {V : Type}.
Variable env : @Env V.

(** The namespace left by [self.shell.run_cell(code)]. *)
Variable run_cell : string → gmap string V → gmap string V.

(** [QudiIPythonKernel.__init__], on the namespace [ns0] of the shell that
    [super().__init__] has set up: the constructed kernel, or the exception
    that ends the construction. *)
Definition QudiIPythonKernel_init (ns0 : gmap string V) (y : Sys)
    : result KernelObject * Sys :=
  match connect env QudiKernelClient_init y with
  | (Raise e, _, y1) => (Raise e, y1)
  | (Return _, client, y1) =>
      let self := {| _qudi_client := client;
                     _namespace_qudi_modules := ∅;
                     user_ns := ns0 |} in
      match update_module_namespace env self y1 with
      | (Raise e, _, y2) => (Raise e, y2)
      | (Return _, self, y2) =>
          (Return {| kernel := set_user_ns (run_cell "object()" (user_ns self)) self;
                     config := {| IPCompleter_use_jedi := false;
                                  PlainTextFormatter_pprint := false;
                                  BaseFormatter_enabled := false |} |},
           y2)
      end
  end.

End KernelInit.

(** The connection that [connect] opens for the configuration [config]. *)
Definition opened_connection (config : Configuration) : Connection :=
  {| conn_host := "localhost"; conn_port := namespace_server_port config;
     conn_config := connect_config; closed := false |}.

(** The outside after the [on_connect] hook has run for [conn]. *)
Definition after_on_connect (conn : Connection) (y : Sys) : Sys :=
  emit (EvStartReceiver conn)
    (emit (EvLog "Qudi IPython kernel connected to local module service.") y).

(** The outside after the [on_disconnect] hook has run on the service [s]. *)
Definition after_on_disconnect (s : QudiKernelService) (y : Sys) : Sys :=
  let y1 :=
    emit (EvLog "Qudi IPython kernel disconnected from local module service.") y
  in match _background_server s with
     | Some bg => emit (EvStopReceiver bg) y1
     | None => y1
     end.

(** The service while the receiver of [conn] is running. *)
Definition serving_on (conn : Connection) : QudiKernelService :=
  {| _background_server := Some {| bg_conn := conn |} |}.

(** The outside after the load of the configuration and the connect. *)
Definition after_connect {V} (env : @Env V) (config : Configuration) (y : Sys) : Sys :=
  emit (EvConnect "localhost" (namespace_server_port config))
    (emit (EvLoadConfig (resolved_config_path env y) false) y).

(** ** Concrete hosts and servers, for the statements at concrete inputs *)

Module Examples.

(** A host whose answers are the given ones; temporary directories are
    created as /tmp/qudi_kernels and exist when the cleanup looks. *)
Definition host_with (mkdtemp : result string) (mkdir dump : result unit)
    (install remove : result string) (rmtree : result unit) : HostEnv :=
  {| sys_executable := "/usr/bin/python3";
     kernel_file := "/opt/qudi/core/qudikernel.py";
     path_join := λ a b, a +:+ "/" +:+ b;
     import_kernelspec_outcome := Return tt;
     import_kernelapp_outcome := Return tt;
     mkdtemp_outcome := λ _, mkdtemp;
     mkdir_outcome := λ _, mkdir;
     dump_json_outcome := λ _, dump;
     install_kernel_spec_outcome := λ _, install;
     remove_kernel_spec_outcome := λ _, remove;
     isdir := λ _, true;
     rmtree_outcome := λ _, rmtree;
     launch_instance_outcome := Return tt |}.

Definition host_ok : HostEnv :=
  host_with (Return "/tmp/qudi_kernels") (Return tt) (Return tt)
    (Return "/home/user/.local/share/jupyter/kernels/qudi")
    (Return "/home/user/.local/share/jupyter/kernels/qudi") (Return tt).

(** A process that has printed nothing and called nothing yet. *)
Definition fresh_host : Host := {| stdout := []; calls := [] |}.

(** jupyter_client's [NoSuchKernel], a subclass of [KeyError]. *)
Definition NoSuchKernel : exc_class := UserClass "NoSuchKernel" KeyError.

(** A server with the given answers to the load of the configuration, to
    the connect and to the namespace query. *)
Definition server_with (config : result Configuration) (refused : option exc_class)
    (modules : result (gmap string Z)) : @Env Z :=
  {| stop_outcome := λ _, Return tt;
     namespace_dict_outcome := λ _, modules;
     close_outcome := λ _, Return tt;
     connect_failure := λ _ _, refused;
     default_config := "default.cfg";
     config_file := λ _, config;
     engine_execute := λ ns, <[ "x" := 7 ]> ns |}.

Definition config0 : Configuration :=
  {| namespace_server_port := 18861 |}.

Definition link0 : Connection :=
  {| conn_host := "localhost"; conn_port := 18861;
     conn_config := connect_config; closed := false |}.

Definition modules0 : gmap string Z := {[ "b" := 20; "d" := 40 ]}.

Definition client0 : QudiKernelClient :=
  {| service_instance := QudiKernelService_init; connection := Some link0 |}.

(** A kernel that tracks a and b, over a namespace where c is the user's. *)
Definition kernel_of (conn : option Connection) : @QudiIPythonKernel Z :=
  {| _qudi_client := {| service_instance := QudiKernelService_init;
                        connection := conn |};
     _namespace_qudi_modules := {[ "a"; "b" ]};
     user_ns := {[ "a" := 1; "b" := 2; "c" := 3 ]} |}.

Definition sys_start : Sys := {| saved_config := None; trace := [] |}.

(** [run_cell] of a shell that binds the underscore to the value. *)
Definition run_cell0 (code : string) (ns : gmap string Z) : gmap string Z :=
  <[ "_" := 0 ]> ns.

End Examples.

(** * Properties *)

Section Properties.

Context {V : Type}.
Implicit Types (env : @Env V) (s : QudiKernelService) (c : QudiKernelClient).
Implicit Types (k : @QudiIPythonKernel V) (y : Sys) (e : exc_class).

(** ** Exceptions *)

Lemma isinstance_true e cls : isinstance e cls = true ↔ cls ∈ mro e.
Proof. unfold isinstance. apply bool_decide_eq_true. Qed.

Lemma isinstance_refl e : isinstance e e = true.
Proof. apply isinstance_true. destruct e; simpl; left. Qed.

Lemma connection_lost_true e :
  connection_lost e = true
  ↔ isinstance e ConnectionError = true ∨ isinstance e EOFError = true.
Proof. unfold connection_lost. apply orb_true_iff. Qed.

(** ** The service hooks *)

Lemma on_connect_run conn s y :
  on_connect conn s y
  = (Return tt, {| _background_server := Some {| bg_conn := conn |} |},
     emit (EvStartReceiver conn)
       (emit (EvLog "Qudi IPython kernel connected to local module service.") y)).
Proof. reflexivity. Qed.

Lemma on_disconnect_run env conn s y :
  on_disconnect env conn s y
  = (Return tt, {| _background_server := None |},
     let y1 :=
       emit (EvLog "Qudi IPython kernel disconnected from local module service.") y
     in match _background_server s with
        | Some bg => emit (EvStopReceiver bg) y1
        | None => y1
        end).
Proof.
  unfold on_disconnect, try_finally, try_except, background_server_stop,
    logging_warning, bind, external, of_result, get. simpl.
  destruct (_background_server s) as [bg|]; simpl; [|reflexivity].
  destruct (stop_outcome env bg) as [[]|e]; reflexivity.
Qed.

(** ** The client *)

Lemma disconnect_run env c y :
  disconnect env c y
  = match connection c with
    | Some conn =>
        (Return tt,
         {| service_instance := QudiKernelService_init; connection := None |},
         after_on_disconnect (service_instance c) (emit (EvClose conn) y))
    | None => (Return tt, c, y)
    end.
Proof.
  unfold disconnect, bind, get. simpl.
  destruct (connection c) as [conn|]; [|reflexivity].
  unfold try_finally, try_except, connection_close, service_hook, on_attr, bind,
    external, of_result.
  simpl. rewrite on_disconnect_run. simpl.
  destruct (close_outcome env conn) as [[]|e]; reflexivity.
Qed.

Lemma get_active_modules_run env c y :
  get_active_modules env c y
  = match connection c with
    | None => (Return ∅, c, y)
    | Some conn =>
        if closed conn then (Return ∅, c, y)
        else
          let y1 := emit (EvRemoteQuery conn) y in
          match namespace_dict_outcome env conn with
          | Return modules => (Return modules, c, y1)
          | Raise e =>
              if connection_lost e
              then (Return ∅,
                    {| service_instance := QudiKernelService_init;
                       connection := None |},
                    after_on_disconnect (service_instance c) (emit (EvClose conn) y1))
              else (Raise e, c, y1)
          end
    end.
Proof.
  unfold get_active_modules, bind, get. simpl.
  destruct (connection c) as [conn|] eqn:Hc; [|reflexivity].
  destruct (closed conn); [reflexivity|].
  unfold try_except, root_get_namespace_dict, bind, external, of_result. simpl.
  destruct (namespace_dict_outcome env conn) as [modules|e]; [reflexivity|].
  destruct (connection_lost e); [|reflexivity].
  rewrite disconnect_run, Hc. reflexivity.
Qed.

(** C9.  While a background receiver is running, [on_disconnect] returns
    normally whatever stopping the receiver does, an exception of any class
    included; the stop is attempted, and afterwards the service holds no
    reference to the receiver. *)
Theorem on_disconnect_swallows_stop_errors env conn s y bg :
  _background_server s = Some bg →
  let r := on_disconnect env conn s y in
  outcome r = Return tt
  ∧ _background_server (receiver r) = None
  ∧ EvStopReceiver bg ∈ trace (outside r).
Proof.
  intros Hbg r. subst r. rewrite on_disconnect_run, Hbg.
  unfold outcome, receiver, outside. simpl. repeat split.
  apply elem_of_app. right. by apply list_elem_of_singleton.
Qed.

(** C10.  On a freshly constructed service, whose receiver reference is
    still [None], stopping the receiver raises [AttributeError], and
    [on_disconnect] catches it: it returns normally and the reference stays
    [None]. *)
Theorem on_disconnect_before_on_connect env conn y :
  outcome (background_server_stop env QudiKernelService_init y) = Raise AttributeError
  ∧ outcome (on_disconnect env conn QudiKernelService_init y) = Return tt
  ∧ receiver (on_disconnect env conn QudiKernelService_init y) = QudiKernelService_init
  ∧ _background_server (receiver (on_disconnect env conn QudiKernelService_init y)) = None.
Proof. rewrite on_disconnect_run. by repeat split. Qed.

(** C7.  In every client state, and whatever closing the connection does,
    [disconnect] returns normally and leaves the client without a
    connection; a further [disconnect] returns normally as well and changes
    nothing, not even the trace of external calls. *)
Theorem disconnect_always_succeeds env env' c y :
  let r := disconnect env c y in
  outcome r = Return tt
  ∧ connection (receiver r) = None
  ∧ disconnect env' (receiver r) (outside r) = (Return tt, receiver r, outside r).
Proof.
  intros r. subst r. rewrite !disconnect_run.
  destruct (connection c) as [conn|] eqn:Hc; unfold outcome, receiver, outside;
    simpl; rewrite ?Hc; by repeat split.
Qed.

(** C6.  When the client has no connection, or has one that is marked
    closed, [get_active_modules] returns the empty mapping; the client and
    the outside are as before, so that no remote call was issued. *)
Theorem get_active_modules_without_link env c y :
  (connection c = None ∨ ∃ conn, connection c = Some conn ∧ closed conn = true) →
  get_active_modules env c y = (Return ∅, c, y).
Proof.
  intros [Hc|(conn & Hc & Hclosed)]; rewrite get_active_modules_run, Hc;
    [reflexivity|]. by rewrite Hclosed.
Qed.

(** C5.  On an open connection whose remote query raises [e]:
    if [e] is a [ConnectionError] or an [EOFError], [get_active_modules]
    returns the empty mapping and clears the connection reference, after
    which [disconnect] returns normally and changes nothing;
    if [e] is of any other class, [e] is raised to the caller. *)
Theorem get_active_modules_connection_loss env env' c y conn e :
  connection c = Some conn →
  closed conn = false →
  namespace_dict_outcome env conn = Raise e →
  let r := get_active_modules env c y in
  (isinstance e ConnectionError = true ∨ isinstance e EOFError = true →
     outcome r = Return ∅
     ∧ connection (receiver r) = None
     ∧ disconnect env' (receiver r) (outside r) = (Return tt, receiver r, outside r))
  ∧ (isinstance e ConnectionError = false ∧ isinstance e EOFError = false →
     outcome r = Raise e).
Proof.
  intros Hc Hopen Hq r. subst r.
  rewrite get_active_modules_run, Hc, Hopen, Hq. simpl. split.
  - intros He. apply connection_lost_true in He. rewrite He.
    unfold outcome, receiver, outside. simpl. rewrite disconnect_run. by simpl.
  - intros [He1 He2]. unfold connection_lost. by rewrite He1, He2.
Qed.

Lemma connect_run env c y :
  connect env c y
  = let path := resolved_config_path env y in
    let y1 := emit (EvLoadConfig path false) y in
    match config_file env path with
    | Raise e => (Raise e, c, y1)
    | Return config =>
        let port := namespace_server_port config in
        let y2 := emit (EvConnect "localhost" port) y1 in
        match connect_failure env "localhost" port with
        | Some e => (Raise e, c, y2)
        | None =>
            (Return tt,
             {| service_instance := serving_on (opened_connection config);
                connection := Some (opened_connection config) |},
             after_on_connect (opened_connection config) y2)
        end
    end.
Proof.
  unfold connect, resolved_config_path, bind, get_saved_config. simpl.
  destruct (saved_config y) as [p|]; simpl;
    unfold load_config, rpyc_connect, service_hook, on_attr, bind, external,
      of_result; simpl;
    (match goal with |- context [config_file env ?p] =>
       destruct (config_file env p) as [config|e] end); simpl;
    try reflexivity;
    destruct (connect_failure env "localhost" (namespace_server_port config));
    reflexivity.
Qed.

(** C8.  [connect] loads the configuration at the saved location if there
    is one and at the default location otherwise, with [set_default] off,
    so that the persisted marker is as before; it then opens the connection
    to the host/port pair resolved from the loaded configuration, giving
    the service of the client to the transport, which starts the receiver
    on the new connection.  If opening the connection fails, the exception
    reaches the caller and the client is unchanged. *)
Theorem connect_endpoint env c y config :
  config_file env (resolved_config_path env y) = Return config →
  let endpoint := resolved_endpoint config in
  let r := connect env c y in
  (resolved_config_path env y
   = match saved_config y with Some p => p | None => default_config env end)
  ∧ endpoint.1 = "localhost"
  ∧ endpoint.2 = namespace_server_port config
  ∧ saved_config (outside r) = saved_config y
  ∧ match connect_failure env endpoint.1 endpoint.2 with
    | None =>
        outcome r = Return tt
        ∧ (∃ conn, connection (receiver r) = Some conn
                   ∧ (conn_host conn, conn_port conn) = endpoint
                   ∧ conn_config conn = connect_config
                   ∧ closed conn = false
                   ∧ _background_server (service_instance (receiver r))
                     = Some {| bg_conn := conn |})
        ∧ trace (outside r)
          = trace y
            ++ [EvLoadConfig (resolved_config_path env y) false;
                EvConnect endpoint.1 endpoint.2;
                EvLog "Qudi IPython kernel connected to local module service.";
                EvStartReceiver (opened_connection config)]
    | Some e =>
        outcome r = Raise e
        ∧ receiver r = c
        ∧ trace (outside r)
          = trace y
            ++ [EvLoadConfig (resolved_config_path env y) false;
                EvConnect endpoint.1 endpoint.2]
    end.
Proof.
  intros Hload endpoint r. subst r endpoint. rewrite connect_run. cbv zeta.
  rewrite Hload. unfold resolved_endpoint. simpl.
  split; [unfold resolved_config_path; by destruct (saved_config y)|].
  split; [done|]. split; [done|].
  destruct (connect_failure env "localhost" (namespace_server_port config));
    unfold outcome, receiver, outside, after_on_connect; simpl.
  - split; [done|]. split; [done|]. split; [done|]. by rewrite <- app_assoc.
  - split; [done|]. split; [done|]. split.
    + eexists. repeat split; reflexivity.
    + by rewrite <- !app_assoc.
Qed.

(** ** The kernel *)

Lemma set_user_ns_id k : set_user_ns (user_ns k) k = k.
Proof. by destruct k. Qed.

Lemma for_each_user_ns_pop (names : list string) k y :
  for_each names user_ns_pop k y
  = (Return tt, set_user_ns (foldl (λ ns name, delete name ns) (user_ns k) names) k, y).
Proof.
  revert k. induction names as [|name names IH]; intros k; simpl.
  - by rewrite set_user_ns_id.
  - unfold bind at 1. unfold user_ns_pop at 1. unfold bind, get, put. simpl.
    rewrite IH. reflexivity.
Qed.

Lemma lookup_foldl_delete (ns : gmap string V) (names : list string) (i : string) :
  foldl (λ ns name, delete name ns) ns names !! i
  = if decide (i ∈ names) then None else ns !! i.
Proof.
  revert ns. induction names as [|name names IH]; intros ns; cbn [foldl].
  - destruct (decide (i ∈ [])) as [H|]; [by apply elem_of_nil in H|done].
  - rewrite IH. destruct (decide (i ∈ names)) as [Hin|Hin].
    + by rewrite decide_True by by right.
    + destruct (decide (i = name)) as [->|Hne].
      * by rewrite lookup_delete_eq, decide_True by left.
      * rewrite lookup_delete_ne, decide_False; [done| |done].
        intros [?|?]%elem_of_cons; done.
Qed.

Lemma lookup_reconciled (modules : gmap string V) (tracked : gset string)
    (ns : gmap string V) (i : string) :
  reconciled modules tracked ns !! i
  = match modules !! i with
    | Some v => Some v
    | None => if decide (i ∈ tracked) then None else ns !! i
    end.
Proof.
  unfold reconciled. rewrite lookup_union, lookup_foldl_delete.
  destruct (modules !! i) as [v|] eqn:Hi.
  - by rewrite union_Some_l.
  - rewrite (left_id_L None _).
    assert (i ∉ dom modules) by by apply not_elem_of_dom.
    destruct (decide (i ∈ tracked));
      [rewrite decide_True | rewrite decide_False]; try done;
      rewrite elem_of_elements, elem_of_difference; [done|].
    by intros [? ?].
Qed.

Lemma update_module_namespace_run env k y :
  update_module_namespace env k y
  = match get_active_modules env (_qudi_client k) y with
    | (Return modules, c1, y1) =>
        (Return tt,
         {| _qudi_client := c1;
            _namespace_qudi_modules := dom modules;
            user_ns := reconciled modules (_namespace_qudi_modules k) (user_ns k) |},
         y1)
    | (Raise e, c1, y1) => (Raise e, set_qudi_client c1 k, y1)
    end.
Proof.
  unfold update_module_namespace, qudi_client, on_attr. unfold bind at 1.
  destruct (get_active_modules env (_qudi_client k) y) as [[[modules|e] c1] y1];
    [|reflexivity].
  unfold bind at 1. unfold get at 1. unfold bind at 1.
  rewrite for_each_user_ns_pop. reflexivity.
Qed.

(** C2.  Whenever a run of [update_module_namespace] obtains the snapshot
    [modules], it returns normally with TrackedNameSet equal to the key set
    of [modules].  No other operation changes TrackedNameSet: not a method
    of the client run from the kernel, not [do_shutdown], not the engine's
    own [do_execute]; the kernel's [do_execute] changes it through the
    reconciliation alone. *)
Theorem tracked_names_are_snapshot_keys env k y modules :
  outcome (get_active_modules env (_qudi_client k) y) = Return modules →
  (outcome (update_module_namespace env k y) = Return tt
   ∧ _namespace_qudi_modules (receiver (update_module_namespace env k y))
     = dom modules)
  ∧ (∀ A (m : M QudiKernelClient A),
       _namespace_qudi_modules (receiver (qudi_client m k y))
       = _namespace_qudi_modules k)
  ∧ (∀ restart,
       _namespace_qudi_modules (receiver (do_shutdown env restart k y))
       = _namespace_qudi_modules k)
  ∧ _namespace_qudi_modules (receiver (super_do_execute env k y))
    = _namespace_qudi_modules k
  ∧ _namespace_qudi_modules (receiver (do_execute env k y))
    = _namespace_qudi_modules (receiver (update_module_namespace env k y)).
Proof.
  intros Hget. repeat split.
  - rewrite update_module_namespace_run.
    destruct (get_active_modules env (_qudi_client k) y) as [[[m|e] c1] y1];
      by inversion Hget.
  - rewrite update_module_namespace_run.
    destruct (get_active_modules env (_qudi_client k) y) as [[[m|e] c1] y1];
      by inversion Hget.
  - intros A m. unfold qudi_client, on_attr, receiver.
    by destruct (m (_qudi_client k) y) as [[r c1] y1].
  - intros restart. unfold do_shutdown, qudi_client, on_attr, bind.
    rewrite disconnect_run. by destruct (connection (_qudi_client k)).
  - unfold do_execute. unfold bind at 1.
    rewrite update_module_namespace_run.
    destruct (get_active_modules env (_qudi_client k) y) as [[[m|e] c1] y1];
      by inversion Hget.
Qed.

(** C3.  When two runs of [update_module_namespace] in a row both obtain the
    snapshot [modules], the second returns normally and leaves the namespace
    and TrackedNameSet as the first left them. *)
Theorem update_module_namespace_idempotent env1 env2 k y modules :
  let r1 := update_module_namespace env1 k y in
  let r2 := update_module_namespace env2 (receiver r1) (outside r1) in
  outcome (get_active_modules env1 (_qudi_client k) y) = Return modules →
  outcome (get_active_modules env2 (_qudi_client (receiver r1)) (outside r1))
  = Return modules →
  outcome r2 = Return tt
  ∧ user_ns (receiver r2) = user_ns (receiver r1)
  ∧ _namespace_qudi_modules (receiver r2) = _namespace_qudi_modules (receiver r1).
Proof.
  intros r1 r2 H1 H2. subst r2.
  rewrite update_module_namespace_run.
  destruct (get_active_modules env2 (_qudi_client (receiver r1)) (outside r1))
    as [[[m2|e2] c2] y2]; inversion H2; subst m2; clear H2.
  subst r1. rewrite update_module_namespace_run.
  destruct (get_active_modules env1 (_qudi_client k) y) as [[[m1|e1] c1] y1];
    inversion H1; subst m1; clear H1.
  unfold outcome, receiver. simpl. repeat split.
  apply map_eq. intros i. rewrite !lookup_reconciled.
  destruct (modules !! i) as [v|] eqn:Hi; [done|].
  destruct (decide (i ∈ dom modules)) as [Hin|Hin]; [|done].
  apply elem_of_dom in Hin as [v Hv]. congruence.
Qed.

(** C4.  With a non-empty TrackedNameSet, a run of [update_module_namespace]
    that obtains the empty snapshot returns normally (a tracked name that
    the namespace no longer binds is no error), leaves no tracked name bound
    in the namespace, leaves TrackedNameSet empty, and leaves the binding of
    every name outside the prior TrackedNameSet as it was. *)
Theorem update_module_namespace_empty_snapshot env k y :
  _namespace_qudi_modules k ≠ ∅ →
  outcome (get_active_modules env (_qudi_client k) y) = Return ∅ →
  let r := update_module_namespace env k y in
  outcome r = Return tt
  ∧ (∀ name, name ∈ _namespace_qudi_modules k → user_ns (receiver r) !! name = None)
  ∧ _namespace_qudi_modules (receiver r) = ∅
  ∧ (∀ name, name ∉ _namespace_qudi_modules k →
       user_ns (receiver r) !! name = user_ns k !! name).
Proof.
  intros _ Hget r. subst r. rewrite update_module_namespace_run.
  destruct (get_active_modules env (_qudi_client k) y) as [[[m|e] c1] y1];
    inversion Hget; subst m; clear Hget.
  unfold outcome, receiver. simpl. split; [done|]. split; [|split].
  - intros name Hin. rewrite lookup_reconciled, lookup_empty.
    by rewrite decide_True.
  - apply dom_empty_L.
  - intros name Hin. rewrite lookup_reconciled, lookup_empty.
    by rewrite decide_False.
Qed.

End Properties.

(** ** The scenario of the spec, and the statements above at concrete inputs *)

(** C1.  With TrackedNameSet = {a, b} and the namespace a=1, b=2, c=3, a
    run of [update_module_namespace] that obtains the snapshot
    {b: 20, d: 40} returns normally and leaves the namespace b=20, c=3,
    d=40, with a unbound, and TrackedNameSet = {b, d}. *)
Theorem reconciliation_scenario (env : @Env Z) (k : @QudiIPythonKernel Z) (y : Sys) :
  _namespace_qudi_modules k = {[ "a"; "b" ]} →
  user_ns k = {[ "a" := 1; "b" := 2; "c" := 3 ]} →
  outcome (get_active_modules env (_qudi_client k) y)
  = Return {[ "b" := 20; "d" := 40 ]} →
  let r := update_module_namespace env k y in
  outcome r = Return tt
  ∧ user_ns (receiver r) = {[ "b" := 20; "c" := 3; "d" := 40 ]}
  ∧ user_ns (receiver r) !! "a" = None
  ∧ _namespace_qudi_modules (receiver r) = {[ "b"; "d" ]}.
Proof.
  intros Htracked Hns Hget r. subst r. rewrite update_module_namespace_run.
  destruct (get_active_modules env (_qudi_client k) y) as [[[m|e] c1] y1];
    inversion Hget; subst m; clear Hget.
  unfold outcome, receiver. simpl. rewrite Htracked, Hns.
  split; [done|]. split; [|split]; by vm_compute.
Qed.

Lemma reconciliation_scenario_witness :
  _namespace_qudi_modules Scenario.kernel0 = {[ "a"; "b" ]}
  ∧ user_ns Scenario.kernel0 = {[ "a" := 1; "b" := 2; "c" := 3 ]}
  ∧ outcome (get_active_modules Scenario.serving (_qudi_client Scenario.kernel0)
               Scenario.sys0)
    = Return {[ "b" := 20; "d" := 40 ]}
  ∧ user_ns (receiver (update_module_namespace Scenario.serving Scenario.kernel0
                         Scenario.sys0))
    = {[ "b" := 20; "c" := 3; "d" := 40 ]}.
Proof.
  do 3 (split; [reflexivity|]).
  apply (reconciliation_scenario Scenario.serving Scenario.kernel0 Scenario.sys0);
    reflexivity.
Defined.

Lemma tracked_names_are_snapshot_keys_witness :
  outcome (get_active_modules Scenario.serving (_qudi_client Scenario.kernel0)
             Scenario.sys0)
  = Return Scenario.snapshot
  ∧ _namespace_qudi_modules
      (receiver (update_module_namespace Scenario.serving Scenario.kernel0
                   Scenario.sys0))
    = dom Scenario.snapshot.
Proof.
  split; [reflexivity|].
  apply (tracked_names_are_snapshot_keys Scenario.serving Scenario.kernel0
           Scenario.sys0 Scenario.snapshot).
  reflexivity.
Defined.

(** Both runs obtain the snapshot {b: 20, d: 40}: the first removes a,
    overwrites b and adds d; the second finds nothing to change. *)
Lemma update_module_namespace_idempotent_witness :
  outcome (get_active_modules Scenario.serving (_qudi_client Scenario.kernel0)
             Scenario.sys0)
  = Return Scenario.snapshot
  ∧ outcome
      (get_active_modules Scenario.serving
         (_qudi_client
            (receiver (update_module_namespace Scenario.serving Scenario.kernel0
                         Scenario.sys0)))
         (outside (update_module_namespace Scenario.serving Scenario.kernel0
                     Scenario.sys0)))
    = Return Scenario.snapshot
  ∧ outcome
      (update_module_namespace Scenario.serving
         (receiver (update_module_namespace Scenario.serving Scenario.kernel0
                      Scenario.sys0))
         (outside (update_module_namespace Scenario.serving Scenario.kernel0
                     Scenario.sys0)))
    = Return tt
  ∧ user_ns
      (receiver
         (update_module_namespace Scenario.serving
            (receiver (update_module_namespace Scenario.serving Scenario.kernel0
                         Scenario.sys0))
            (outside (update_module_namespace Scenario.serving Scenario.kernel0
                        Scenario.sys0))))
    = user_ns
        (receiver (update_module_namespace Scenario.serving Scenario.kernel0
                     Scenario.sys0))
  ∧ _namespace_qudi_modules
      (receiver
         (update_module_namespace Scenario.serving
            (receiver (update_module_namespace Scenario.serving Scenario.kernel0
                         Scenario.sys0))
            (outside (update_module_namespace Scenario.serving Scenario.kernel0
                        Scenario.sys0))))
    = _namespace_qudi_modules
        (receiver (update_module_namespace Scenario.serving Scenario.kernel0
                     Scenario.sys0))
  ∧ user_ns
      (receiver (update_module_namespace Scenario.serving Scenario.kernel0
                   Scenario.sys0))
    = {[ "b" := 20; "c" := 3; "d" := 40 ]}.
Proof.
  split; [reflexivity|]. split; [reflexivity|].
  pose proof (update_module_namespace_idempotent Scenario.serving Scenario.serving
                Scenario.kernel0 Scenario.sys0 Scenario.snapshot eq_refl eq_refl)
    as (H1 & H2 & H3).
  split; [exact H1|]. split; [exact H2|]. split; [exact H3|].
  by vm_compute.
Defined.

Lemma update_module_namespace_empty_snapshot_witness :
  _namespace_qudi_modules Scenario.kernel_stale ≠ ∅
  ∧ outcome (get_active_modules Scenario.serving
               (_qudi_client Scenario.kernel_stale) Scenario.sys0)
    = Return ∅
  ∧ outcome (update_module_namespace Scenario.serving Scenario.kernel_stale
               Scenario.sys0)
    = Return tt
  ∧ _namespace_qudi_modules
      (receiver (update_module_namespace Scenario.serving Scenario.kernel_stale
                   Scenario.sys0))
    = ∅.
Proof.
  assert (Hne : _namespace_qudi_modules Scenario.kernel_stale ≠ ∅).
  { intros H.
    assert (Hin : "a" ∈ _namespace_qudi_modules Scenario.kernel_stale)
      by by vm_compute.
    rewrite H in Hin. by apply not_elem_of_empty in Hin. }
  split; [exact Hne|]. split; [reflexivity|].
  pose proof (update_module_namespace_empty_snapshot Scenario.serving
                Scenario.kernel_stale Scenario.sys0 Hne eq_refl)
    as (H1 & _ & H3 & _).
  split; [exact H1 | exact H3].
Defined.

Lemma get_active_modules_connection_loss_witness :
  connection (Scenario.client_with (Some Scenario.link)) = Some Scenario.link
  ∧ closed Scenario.link = false
  ∧ namespace_dict_outcome (Scenario.failing ConnectionResetError) Scenario.link
    = Raise ConnectionResetError
  ∧ isinstance ConnectionResetError ConnectionError = true
  ∧ outcome (get_active_modules (Scenario.failing ConnectionResetError)
               (Scenario.client_with (Some Scenario.link)) Scenario.sys0)
    = Return ∅
  ∧ connection
      (receiver (get_active_modules (Scenario.failing ConnectionResetError)
                   (Scenario.client_with (Some Scenario.link)) Scenario.sys0))
    = None.
Proof.
  do 4 (split; [reflexivity|]).
  pose proof (get_active_modules_connection_loss
                (Scenario.failing ConnectionResetError)
                (Scenario.failing ConnectionResetError)
                (Scenario.client_with (Some Scenario.link)) Scenario.sys0
                Scenario.link ConnectionResetError eq_refl eq_refl eq_refl)
    as [Hlost _].
  destruct (Hlost (or_introl eq_refl)) as (H1 & H2 & _).
  split; [exact H1 | exact H2].
Defined.

Lemma get_active_modules_without_link_witness :
  get_active_modules Scenario.serving (Scenario.client_with (Some Scenario.closed_link))
    Scenario.sys0
  = (Return ∅, Scenario.client_with (Some Scenario.closed_link), Scenario.sys0).
Proof.
  apply (get_active_modules_without_link Scenario.serving).
  right. exists Scenario.closed_link. split; reflexivity.
Defined.

Lemma on_disconnect_swallows_stop_errors_witness :
  _background_server Scenario.service_running = Some Scenario.receiver_of_link
  ∧ stop_outcome Scenario.serving Scenario.receiver_of_link
    = Raise (UserClass "ThreadError" Exception)
  ∧ outcome (on_disconnect Scenario.serving Scenario.link Scenario.service_running
               Scenario.sys0)
    = Return tt
  ∧ _background_server
      (receiver (on_disconnect Scenario.serving Scenario.link
                   Scenario.service_running Scenario.sys0))
    = None.
Proof.
  do 2 (split; [reflexivity|]).
  pose proof (on_disconnect_swallows_stop_errors Scenario.serving Scenario.link
                Scenario.service_running Scenario.sys0 Scenario.receiver_of_link
                eq_refl)
    as (H1 & H2 & _).
  split; [exact H1 | exact H2].
Defined.

Lemma connect_endpoint_witness :
  config_file Scenario.serving (resolved_config_path Scenario.serving Scenario.sys_saved)
  = Return Scenario.lab_config
  ∧ resolved_config_path Scenario.serving Scenario.sys_saved = "saved.cfg"
  ∧ saved_config
      (outside (connect Scenario.serving (Scenario.client_with None) Scenario.sys_saved))
    = Some "saved.cfg"
  ∧ connection
      (receiver (connect Scenario.serving (Scenario.client_with None)
                   Scenario.sys_saved))
    = Some Scenario.link.
Proof.
  split; [reflexivity|].
  pose proof (connect_endpoint Scenario.serving (Scenario.client_with None)
                Scenario.sys_saved Scenario.lab_config eq_refl)
    as (H1 & _ & _ & H4 & _ & (conn & H6 & H7 & H8 & H9 & _) & _).
  split; [exact H1|]. split; [exact H4|].
  rewrite H6. destruct conn as [host port cfg cl]. simpl in H7, H8, H9.
  inversion H7. subst. reflexivity.
Defined.

(** * Further properties of the service, the client and the kernel *)

Section MoreProperties.

Context {V : Type}.
Implicit Types (env : @Env V) (s : QudiKernelService) (c : QudiKernelClient).
Implicit Types (k : @QudiIPythonKernel V) (y : Sys) (e : exc_class).

Lemma set_qudi_client_id k : set_qudi_client (_qudi_client k) k = k.
Proof. by destruct k. Qed.

Lemma connection_lost_subclass name base :
  connection_lost base = true → connection_lost (UserClass name base) = true.
Proof.
  unfold connection_lost. rewrite !orb_true_iff, !isinstance_true. simpl.
  intros [H|H]; [left|right]; by apply elem_of_cons; right.
Qed.

Lemma reconciled_empty_tracked (modules ns : gmap string V) :
  reconciled modules ∅ ns = modules ∪ ns.
Proof.
  apply map_eq. intros i. rewrite lookup_reconciled, lookup_union.
  destruct (modules !! i) as [v|] eqn:Hi.
  - by rewrite union_Some_l.
  - rewrite (left_id_L None _). by rewrite decide_False.
Qed.

Lemma reconciled_nothing (ns : gmap string V) : reconciled ∅ ∅ ns = ns.
Proof. rewrite reconciled_empty_tracked. apply (left_id_L ∅ _). Qed.

(** X1.  [on_connect] followed by [on_disconnect] returns normally whatever
    stopping does, leaves the service as constructed, and the receiver it
    stops is the one started for the connection given to [on_connect]; the
    argument of [on_disconnect] plays no part. *)
Theorem on_connect_then_on_disconnect env conn conn' s y :
  on_disconnect env conn' (receiver (on_connect conn s y)) (outside (on_connect conn s y))
  = (Return tt, QudiKernelService_init,
     {| saved_config := saved_config y;
        trace := trace y
          ++ [EvLog "Qudi IPython kernel connected to local module service.";
              EvStartReceiver conn;
              EvLog "Qudi IPython kernel disconnected from local module service.";
              EvStopReceiver {| bg_conn := conn |}] |}).
Proof.
  rewrite on_connect_run, on_disconnect_run. unfold receiver, outside, emit.
  simpl. by rewrite <- !app_assoc.
Qed.

(** X2.  A second [on_connect] replaces the receiver reference without
    stopping the first receiver: after two [on_connect] and one
    [on_disconnect], only the receiver of the second connection has been
    stopped. *)
Theorem on_connect_twice_stops_only_the_last env conn1 conn2 conn' s y :
  let r1 := on_connect conn1 s y in
  let r2 := on_connect conn2 (receiver r1) (outside r1) in
  let r3 := on_disconnect env conn' (receiver r2) (outside r2) in
  _background_server (receiver r2) = Some {| bg_conn := conn2 |}
  ∧ outcome r3 = Return tt
  ∧ trace (outside r3)
    = trace y
      ++ [EvLog "Qudi IPython kernel connected to local module service.";
          EvStartReceiver conn1;
          EvLog "Qudi IPython kernel connected to local module service.";
          EvStartReceiver conn2;
          EvLog "Qudi IPython kernel disconnected from local module service.";
          EvStopReceiver {| bg_conn := conn2 |}].
Proof.
  intros r1 r2 r3. subst r1 r2 r3.
  rewrite !on_connect_run, on_disconnect_run. unfold receiver, outside, outcome, emit.
  simpl. by rewrite <- !app_assoc.
Qed.

(** X3.  On an open connection whose remote query returns, the result of
    [get_active_modules] is the mapping the server returned; the client is
    unchanged and exactly one remote query was issued. *)
Theorem get_active_modules_returns_remote_answer env c y conn modules :
  connection c = Some conn →
  closed conn = false →
  namespace_dict_outcome env conn = Return modules →
  get_active_modules env c y = (Return modules, c, emit (EvRemoteQuery conn) y).
Proof.
  intros Hc Hopen Hq. by rewrite get_active_modules_run, Hc, Hopen, Hq.
Qed.

(** X4.  [get_active_modules] never raises a [ConnectionError] or an
    [EOFError], nor an exception of a subclass of these.  When it does
    raise, the exception is the one of the remote query on the open
    connection of the client, and the client is unchanged. *)
Theorem get_active_modules_raises_no_connection_loss env c y e :
  outcome (get_active_modules env c y) = Raise e →
  isinstance e ConnectionError = false
  ∧ isinstance e EOFError = false
  ∧ receiver (get_active_modules env c y) = c
  ∧ ∃ conn, connection c = Some conn ∧ closed conn = false
            ∧ namespace_dict_outcome env conn = Raise e.
Proof.
  rewrite get_active_modules_run. unfold outcome, receiver.
  destruct (connection c) as [conn|]; [|done].
  destruct (closed conn) eqn:Hclosed; [done|]. simpl.
  destruct (namespace_dict_outcome env conn) as [m|e'] eqn:Hq; [done|].
  destruct (connection_lost e') eqn:Hlost; [done|]. simpl.
  intros [= ->]. apply orb_false_iff in Hlost as [H1 H2].
  repeat split; try done. by exists conn.
Qed.

(** X5.  The [except] clause matches by inheritance: when the remote query
    raises an exception of a user-defined class derived from a class that
    the clause catches, [get_active_modules] returns the empty mapping and
    drops the connection as well. *)
Theorem get_active_modules_catches_subclasses env c y conn name base :
  connection c = Some conn →
  closed conn = false →
  connection_lost base = true →
  namespace_dict_outcome env conn = Raise (UserClass name base) →
  outcome (get_active_modules env c y) = Return ∅
  ∧ connection (receiver (get_active_modules env c y)) = None.
Proof.
  intros Hc Hopen Hbase Hq.
  rewrite get_active_modules_run, Hc, Hopen, Hq. simpl.
  by rewrite (connection_lost_subclass name base Hbase).
Qed.

(** X6.  [connect] never closes a connection: on a client that already has
    one, no close is among the calls it makes, and on success the reference
    is overwritten with the new connection. *)
Theorem connect_never_closes env c y :
  ∃ evs, trace (outside (connect env c y)) = trace y ++ evs
         ∧ (∀ conn, EvClose conn ∉ evs)
         ∧ (outcome (connect env c y) = Return tt →
            ∃ port, connection (receiver (connect env c y))
                    = Some {| conn_host := "localhost"; conn_port := port;
                              conn_config := connect_config; closed := false |}).
Proof.
  rewrite connect_run. cbv zeta.
  destruct (config_file env (resolved_config_path env y)) as [config|e].
  - destruct (connect_failure env "localhost" (namespace_server_port config)).
    + eexists [_; _]. unfold outside, outcome. simpl.
      rewrite <- app_assoc. split; [done|]. split; [|done].
      intros conn [H|[H|H]%elem_of_cons]%elem_of_cons; try done.
      by apply elem_of_nil in H.
    + eexists [_; _; _; _]. unfold outside, outcome, receiver, after_on_connect.
      simpl. rewrite <- !app_assoc. split; [done|]. split; [|by eexists].
      intros conn H.
      repeat (apply elem_of_cons in H as [H|H]; [discriminate H|]).
      by apply elem_of_nil in H.
  - eexists [_]. unfold outside, outcome. simpl. split; [done|]. split; [|done].
    intros conn [H|H]%elem_of_cons; try done. by apply elem_of_nil in H.
Qed.

(** X7.  When loading the configuration raises, [connect] raises the same
    exception without attempting a connection; the client and the saved
    marker are unchanged. *)
Theorem connect_load_failure env c y e :
  config_file env (resolved_config_path env y) = Raise e →
  connect env c y
  = (Raise e, c, emit (EvLoadConfig (resolved_config_path env y) false) y).
Proof. intros Hload. rewrite connect_run. cbv zeta. by rewrite Hload. Qed.

(** X8.  After a successful [connect], [get_active_modules] queries the
    server over the new connection and returns its answer, whatever
    connection the client held before. *)
Theorem connect_then_get_active_modules env env' c y config modules :
  config_file env (resolved_config_path env y) = Return config →
  connect_failure env "localhost" (namespace_server_port config) = None →
  let conn := {| conn_host := "localhost"; conn_port := namespace_server_port config;
                 conn_config := connect_config; closed := false |} in
  namespace_dict_outcome env' conn = Return modules →
  let r := connect env c y in
  outcome r = Return tt
  ∧ outcome (get_active_modules env' (receiver r) (outside r)) = Return modules
  ∧ EvRemoteQuery conn
    ∈ trace (outside (get_active_modules env' (receiver r) (outside r))).
Proof.
  intros Hload Hconn conn Hq r. subst r.
  rewrite connect_run. cbv zeta. rewrite Hload, Hconn.
  unfold outcome at 1. simpl. split; [done|].
  rewrite get_active_modules_run. unfold receiver, outside, outcome. simpl.
  change (opened_connection config) with conn. rewrite Hq. simpl. split; [done|].
  apply elem_of_app. right. by apply list_elem_of_singleton.
Qed.

Lemma do_execute_run env k y :
  do_execute env k y
  = match update_module_namespace env k y with
    | (Return _, k1, y1) =>
        (Return tt, set_user_ns (engine_execute env (user_ns k1)) k1,
         emit EvSuperExecute y1)
    | (Raise e, k1, y1) => (Raise e, k1, y1)
    end.
Proof.
  unfold do_execute. unfold bind at 1.
  by destruct (update_module_namespace env k y) as [[[[]|e] k1] y1].
Qed.


(** X10.  When the remote query raises an exception that is neither a
    [ConnectionError] nor an [EOFError], [do_execute] raises it: the
    engine's own [do_execute] is not run, and the kernel is unchanged. *)
Theorem do_execute_aborts_on_other_errors env k y conn e :
  connection (_qudi_client k) = Some conn →
  closed conn = false →
  namespace_dict_outcome env conn = Raise e →
  connection_lost e = false →
  do_execute env k y = (Raise e, k, emit (EvRemoteQuery conn) y).
Proof.
  intros Hc Hopen Hq Hlost.
  rewrite do_execute_run, update_module_namespace_run, get_active_modules_run,
    Hc, Hopen, Hq.
  simpl. rewrite Hlost. by rewrite set_qudi_client_id.
Qed.

(** X11.  When the remote query fails with a lost connection, [do_execute]
    still runs the engine: it returns normally, the connection is dropped,
    TrackedNameSet is empty, and the engine has run on the namespace from
    which the tracked names were removed. *)
Theorem do_execute_survives_connection_loss env k y conn e :
  connection (_qudi_client k) = Some conn →
  closed conn = false →
  namespace_dict_outcome env conn = Raise e →
  connection_lost e = true →
  let r := do_execute env k y in
  outcome r = Return tt
  ∧ connection (_qudi_client (receiver r)) = None
  ∧ _namespace_qudi_modules (receiver r) = ∅
  ∧ user_ns (receiver r)
    = engine_execute env
        (filter (λ kv, kv.1 ∉ _namespace_qudi_modules k) (user_ns k))
  ∧ last (trace (outside r)) = Some EvSuperExecute.
Proof.
  intros Hc Hopen Hq Hlost r. subst r.
  rewrite do_execute_run, update_module_namespace_run, get_active_modules_run,
    Hc, Hopen, Hq.
  simpl. rewrite Hlost. unfold outcome, receiver, outside.
  simpl. rewrite last_snoc. split; [done|]. split; [done|].
  split; [apply dom_empty_L|]. split; [|done].
  f_equal. apply map_eq. intros i.
  rewrite lookup_reconciled, lookup_empty.
  destruct (decide (i ∈ _namespace_qudi_modules k)) as [Hin|Hin].
  - symmetry. apply map_lookup_filter_None. right. intros v _. simpl. by intros ?.
  - destruct (user_ns k !! i) as [v|] eqn:Hi.
    + symmetry. by apply map_lookup_filter_Some.
    + symmetry. apply map_lookup_filter_None. by left.
Qed.

(** X12.  The namespace after a run of [update_module_namespace] that
    obtains [modules]: a name of the snapshot is bound to the snapshot's
    value, over any binding the user had; a tracked name that is not in the
    snapshot is unbound; every other name is bound as before. *)
Theorem update_module_namespace_lookup env k y modules name :
  outcome (get_active_modules env (_qudi_client k) y) = Return modules →
  user_ns (receiver (update_module_namespace env k y)) !! name
  = match modules !! name with
    | Some v => Some v
    | None =>
        if decide (name ∈ _namespace_qudi_modules k) then None
        else user_ns k !! name
    end.
Proof.
  intros Hget. rewrite update_module_namespace_run.
  destruct (get_active_modules env (_qudi_client k) y) as [[[m|e] c1] y1];
    inversion Hget; subst m.
  unfold receiver. simpl. apply lookup_reconciled.
Qed.

(** X13.  Two runs in a row that obtain [modules1] and then [modules2]: a
    name that the first snapshot had and the second has not is unbound
    afterwards, also when the user had bound it before the first run; the
    names of the second snapshot carry its values. *)
Theorem update_module_namespace_then_dropped env1 env2 k y modules1 modules2 name :
  let r1 := update_module_namespace env1 k y in
  let r2 := update_module_namespace env2 (receiver r1) (outside r1) in
  outcome (get_active_modules env1 (_qudi_client k) y) = Return modules1 →
  outcome (get_active_modules env2 (_qudi_client (receiver r1)) (outside r1))
  = Return modules2 →
  user_ns (receiver r2) !! name
  = match modules2 !! name with
    | Some v => Some v
    | None =>
        if decide (name ∈ dom modules1 ∪ _namespace_qudi_modules k) then None
        else user_ns k !! name
    end.
Proof.
  intros r1 r2 H1 H2. subst r2.
  rewrite update_module_namespace_run.
  destruct (get_active_modules env2 (_qudi_client (receiver r1)) (outside r1))
    as [[[m2|e2] c2] y2]; inversion H2; subst m2; clear H2.
  subst r1. rewrite update_module_namespace_run.
  destruct (get_active_modules env1 (_qudi_client k) y) as [[[m1|e1] c1] y1];
    inversion H1; subst m1; clear H1.
  unfold receiver. simpl. rewrite !lookup_reconciled.
  destruct (modules2 !! name) as [v|]; [done|].
  destruct (decide (name ∈ dom modules1)) as [Hin|Hin].
  - rewrite decide_True; [done|]. apply elem_of_union. by left.
  - apply not_elem_of_dom in Hin as Hnone. rewrite Hnone.
    destruct (decide (name ∈ _namespace_qudi_modules k)) as [Ht|Ht].
    + rewrite decide_True; [done|]. apply elem_of_union. by right.
    + rewrite decide_False; [done|]. by intros [?|?]%elem_of_union.
Qed.

(** X14.  Without a usable connection, [update_module_namespace] makes no
    external call at all: it returns normally, removes the tracked names
    from the namespace, empties TrackedNameSet and leaves the client and
    the outside as they were. *)
Theorem update_module_namespace_offline env k y :
  (connection (_qudi_client k) = None
   ∨ ∃ conn, connection (_qudi_client k) = Some conn ∧ closed conn = true) →
  update_module_namespace env k y
  = (Return tt,
     {| _qudi_client := _qudi_client k;
        _namespace_qudi_modules := ∅;
        user_ns := reconciled ∅ (_namespace_qudi_modules k) (user_ns k) |},
     y).
Proof.
  intros Hoff. rewrite update_module_namespace_run, get_active_modules_run.
  destruct Hoff as [Hc|(conn & Hc & Hclosed)]; rewrite Hc, ?Hclosed;
    by rewrite dom_empty_L.
Qed.

(** X15.  There is no reconnection: once a run of
    [update_module_namespace] has met a lost connection, a further run, in
    any environment, returns normally and changes nothing, neither the
    kernel nor the outside, so that the server is not asked again. *)
Theorem no_reconnection_after_connection_loss env env' k y conn e :
  connection (_qudi_client k) = Some conn →
  closed conn = false →
  namespace_dict_outcome env conn = Raise e →
  connection_lost e = true →
  let r := update_module_namespace env k y in
  outcome r = Return tt
  ∧ update_module_namespace env' (receiver r) (outside r)
    = (Return tt, receiver r, outside r).
Proof.
  intros Hc Hopen Hq Hlost r. subst r.
  rewrite (update_module_namespace_run env), get_active_modules_run, Hc, Hopen, Hq.
  simpl. rewrite Hlost. unfold outcome, receiver, outside. simpl.
  split; [done|].
  rewrite update_module_namespace_run, get_active_modules_run. simpl.
  by rewrite !dom_empty_L, reconciled_nothing.
Qed.

(** X16.  The loop of [pop]s does not depend on the order in which the set
    of removed names is iterated, nor on repetitions: two lists with the
    same elements leave the same kernel. *)
Theorem for_each_user_ns_pop_order (names1 names2 : list string) k y :
  (∀ name, name ∈ names1 ↔ name ∈ names2) →
  for_each names1 user_ns_pop k y = for_each names2 user_ns_pop k y.
Proof.
  intros Hsame. rewrite !for_each_user_ns_pop. do 3 f_equal.
  apply map_eq. intros i. rewrite !lookup_foldl_delete.
  destruct (decide (i ∈ names1)) as [H1|H1].
  - rewrite decide_True; [done|]. by apply Hsame.
  - rewrite decide_False; [done|]. by rewrite <- Hsame.
Qed.

End MoreProperties.

(** * Properties of the construction of the kernel *)

Section KernelInitProperties.

Context {V : Type}.
Variable env : @Env V.
Variable run_cell : string → gmap string V → gmap string V.
Implicit Types (ns : gmap string V) (y : Sys) (e : exc_class).

(** X17.  When the server refuses the connection, the construction of the
    kernel fails with the exception of the connect, before any remote
    query. *)
Theorem kernel_init_connection_refused ns y config e :
  config_file env (resolved_config_path env y) = Return config →
  connect_failure env "localhost" (namespace_server_port config) = Some e →
  QudiIPythonKernel_init env run_cell ns y = (Raise e, after_connect env config y).
Proof.
  intros Hload Hconn. unfold QudiIPythonKernel_init.
  rewrite connect_run. cbv zeta. by rewrite Hload, Hconn.
Qed.

(** X18.  When the connection is opened and the first query returns
    [modules], the kernel is constructed with TrackedNameSet equal to the
    key set of [modules]; the first reconciliation removes nothing, so that
    the namespace handed to [run_cell] is the shell's own, with the entries
    of [modules] bound over it.  The service of the client holds the
    receiver that [on_connect] started on the new connection, and the
    outside has seen the load, the connect, the hook and one query. *)
Theorem kernel_init_success ns y config modules :
  config_file env (resolved_config_path env y) = Return config →
  connect_failure env "localhost" (namespace_server_port config) = None →
  namespace_dict_outcome env (opened_connection config) = Return modules →
  QudiIPythonKernel_init env run_cell ns y
  = (Return
       {| kernel :=
            {| _qudi_client :=
                 {| service_instance := serving_on (opened_connection config);
                    connection := Some (opened_connection config) |};
               _namespace_qudi_modules := dom modules;
               user_ns := run_cell "object()" (modules ∪ ns) |};
          config := {| IPCompleter_use_jedi := false;
                       PlainTextFormatter_pprint := false;
                       BaseFormatter_enabled := false |} |},
     emit (EvRemoteQuery (opened_connection config))
       (after_on_connect (opened_connection config) (after_connect env config y))).
Proof.
  intros Hload Hconn Hq. unfold QudiIPythonKernel_init.
  rewrite connect_run. cbv zeta. rewrite Hload, Hconn.
  rewrite update_module_namespace_run, get_active_modules_run. simpl.
  fold (opened_connection config). rewrite Hq. simpl.
  by rewrite reconciled_empty_tracked.
Qed.

(** X19.  When the connection is opened but is lost at the first query, the
    construction does not fail: the kernel starts without a connection,
    with an empty TrackedNameSet, and [run_cell] gets the shell's own
    namespace. *)
Theorem kernel_init_connection_lost ns y config e :
  config_file env (resolved_config_path env y) = Return config →
  connect_failure env "localhost" (namespace_server_port config) = None →
  namespace_dict_outcome env (opened_connection config) = Raise e →
  connection_lost e = true →
  ∃ obj y', QudiIPythonKernel_init env run_cell ns y = (Return obj, y')
            ∧ connection (_qudi_client (kernel obj)) = None
            ∧ _namespace_qudi_modules (kernel obj) = ∅
            ∧ user_ns (kernel obj) = run_cell "object()" ns.
Proof.
  intros Hload Hconn Hq Hlost. unfold QudiIPythonKernel_init.
  rewrite connect_run. cbv zeta. rewrite Hload, Hconn.
  rewrite update_module_namespace_run, get_active_modules_run. simpl.
  fold (opened_connection config). rewrite Hq. simpl. rewrite Hlost.
  eexists _, _. split; [reflexivity|]. simpl.
  split; [done|]. split; [apply dom_empty_L|].
  by rewrite reconciled_nothing.
Qed.

(** X20.  When the first query raises an exception that is neither a
    [ConnectionError] nor an [EOFError], the construction of the kernel
    fails with it, after the load, the connect, the [on_connect] hook and
    that one query. *)
Theorem kernel_init_query_error ns y config e :
  config_file env (resolved_config_path env y) = Return config →
  connect_failure env "localhost" (namespace_server_port config) = None →
  namespace_dict_outcome env (opened_connection config) = Raise e →
  connection_lost e = false →
  QudiIPythonKernel_init env run_cell ns y
  = (Raise e,
     emit (EvRemoteQuery (opened_connection config))
       (after_on_connect (opened_connection config) (after_connect env config y))).
Proof.
  intros Hload Hconn Hq Hlost. unfold QudiIPythonKernel_init.
  rewrite connect_run. cbv zeta. rewrite Hload, Hconn.
  rewrite update_module_namespace_run, get_active_modules_run. simpl.
  fold (opened_connection config). rewrite Hq. simpl. by rewrite Hlost.
Qed.

End KernelInitProperties.

(** * Properties of the installer and of the entry point *)

Section InstallerProperties.

Variable henv : HostEnv.
Implicit Types (h : Host) (y : Sys) (e : exc_class).

Ltac run_install :=
  unfold install_kernel, install_kernel_frame, in_host, on_attr, try_finally,
    read_tempdir, assign_tempdir, bind, print, host, of_result, get, put, ret,
    raise;
  simpl.

Ltac case_outcomes :=
  repeat match goal with
    | H : ?o = _ |- context [match ?o with _ => _ end] => rewrite H; simpl
    | H : ?b = _ |- context [if ?b then _ else _] => rewrite H; simpl
    | |- context [match ?o with Return _ => _ | Raise _ => _ end] =>
        let E := fresh "E" in destruct o eqn:E; simpl
    | |- context [if isdir henv ?d then _ else _] =>
        let E := fresh "E" in destruct (isdir henv d) eqn:E; simpl
    end.

(** X21.  Once [mkdtemp] has returned a directory that still exists when
    the [finally] clause runs, [install_kernel] removes it as its last
    call, whichever of the steps in between failed. *)
Theorem install_kernel_removes_tempdir h y d :
  import_kernelspec_outcome henv = Return tt →
  mkdtemp_outcome henv "_kernels" = Return d →
  isdir henv d = true →
  last (calls (receiver (install_kernel henv h y))) = Some (CallRmtree d).
Proof.
  intros Himport Hmk Hdir. unfold receiver. run_install. rewrite Himport. simpl.
  rewrite Hmk. simpl. case_outcomes; by rewrite last_snoc.
Qed.

(** X22.  When [mkdtemp] itself raises, the [finally] clause reads the
    unassigned local [tempdir]: the caller gets [UnboundLocalError] in place
    of the exception of [mkdtemp], and nothing else was called. *)
Theorem install_kernel_mkdtemp_failure h y e :
  import_kernelspec_outcome henv = Return tt →
  mkdtemp_outcome henv "_kernels" = Raise e →
  install_kernel henv h y
  = (Raise UnboundLocalError,
     {| stdout := stdout h ++ ["> Installing qudi kernel..."];
        calls := calls h ++ [CallMkdtemp "_kernels"] |},
     y).
Proof.
  intros Himport Hmk. run_install. rewrite Himport. simpl. by rewrite Hmk.
Qed.

(** X23.  When every step succeeds, [install_kernel] makes the directory
    qudi under the temporary directory, writes [kernel.json] in it with the
    command line of this kernel, installs it as the user kernelspec qudi,
    prints where, and removes the temporary directory. *)
Theorem install_kernel_success h y d dest :
  import_kernelspec_outcome henv = Return tt →
  mkdtemp_outcome henv "_kernels" = Return d →
  let path := path_join henv d "qudi" in
  mkdir_outcome henv path = Return tt →
  dump_json_outcome henv (path_join henv path "kernel.json") = Return tt →
  install_kernel_spec_outcome henv path = Return dest →
  isdir henv d = true →
  rmtree_outcome henv d = Return tt →
  install_kernel henv h y
  = (Return tt,
     {| stdout := stdout h ++ ["> Installing qudi kernel..."; installed_message dest];
        calls := calls h
          ++ [CallMkdtemp "_kernels";
              CallMkdir path;
              CallDumpJson (path_join henv path "kernel.json")
                {| argv := [sys_executable henv; kernel_file henv; "-f";
                            "{connection_file}"];
                   display_name := "qudi";
                   language := "python" |} 1;
              CallInstallKernelSpec path "qudi" true;
              CallRmtree d] |},
     y).
Proof.
  intros Himport Hmk path Hmkdir Hdump Hinst Hdir Hrm. subst path.
  run_install. rewrite Himport. simpl. rewrite Hmk. simpl.
  rewrite Hmkdir. simpl. rewrite Hdump. simpl. rewrite Hinst. simpl.
  rewrite Hdir. simpl. rewrite Hrm. simpl.
  by rewrite <- !app_assoc.
Qed.

(** X24.  A failure of the cleanup wins: when removing the temporary
    directory raises, that exception reaches the caller, also when the
    kernelspec was installed and reported, and in place of the exception of
    a step that failed before. *)
Theorem install_kernel_cleanup_failure h y d e :
  import_kernelspec_outcome henv = Return tt →
  mkdtemp_outcome henv "_kernels" = Return d →
  isdir henv d = true →
  rmtree_outcome henv d = Raise e →
  outcome (install_kernel henv h y) = Raise e.
Proof.
  intros Himport Hmk Hdir Hrm. unfold outcome. run_install.
  rewrite Himport. simpl. rewrite Hmk. simpl. case_outcomes; congruence.
Qed.

(** X25.  [install_kernel] returns normally only if every step succeeded:
    the import, [mkdtemp], [mkdir], the write of [kernel.json], the
    installation of the kernelspec, and the removal of the temporary
    directory where it still exists. *)
Theorem install_kernel_returns_only_on_success h y :
  outcome (install_kernel henv h y) = Return tt →
  import_kernelspec_outcome henv = Return tt
  ∧ ∃ d dest,
      mkdtemp_outcome henv "_kernels" = Return d
      ∧ mkdir_outcome henv (path_join henv d "qudi") = Return tt
      ∧ dump_json_outcome henv
          (path_join henv (path_join henv d "qudi") "kernel.json") = Return tt
      ∧ install_kernel_spec_outcome henv (path_join henv d "qudi") = Return dest
      ∧ (isdir henv d = false ∨ rmtree_outcome henv d = Return tt)
      ∧ CallInstallKernelSpec (path_join henv d "qudi") "qudi" true
        ∈ calls (receiver (install_kernel henv h y)).
Proof.
  unfold outcome, receiver. run_install.
  destruct (import_kernelspec_outcome henv) as [[]|e0]; [|done]. simpl.
  destruct (mkdtemp_outcome henv "_kernels") as [d|e1]; [|done]. simpl.
  destruct (mkdir_outcome henv (path_join henv d "qudi")) as [[]|e2] eqn:Hmkdir;
    simpl; [|by case_outcomes].
  destruct (dump_json_outcome henv
              (path_join henv (path_join henv d "qudi") "kernel.json"))
    as [[]|e3] eqn:Hdump; simpl; [|by case_outcomes].
  destruct (install_kernel_spec_outcome henv (path_join henv d "qudi"))
    as [dest|e4] eqn:Hinst; simpl; [|by case_outcomes].
  destruct (isdir henv d) eqn:Hdir; simpl.
  - destruct (rmtree_outcome henv d) as [[]|e5] eqn:Hrm; simpl; [|done].
    intros _. split; [done|]. exists d, dest. repeat split; try done; [by right|].
    rewrite !elem_of_app, !list_elem_of_singleton. by left; right.
  - intros _. split; [done|]. exists d, dest. repeat split; try done; [by left|].
    rewrite !elem_of_app, !list_elem_of_singleton. by right.
Qed.

(** X26.  [uninstall_kernel] reports a kernelspec that is not installed
    instead of raising: a [KeyError] of the registry, or an exception of a
    subclass, ends in the message that none was found; a removal that
    returns ends in the message of success; any other exception reaches the
    caller with neither message printed. *)
Theorem uninstall_kernel_outcomes h y :
  import_kernelspec_outcome henv = Return tt →
  let started := stdout h ++ ["> Uninstalling qudi kernel..."] in
  let called := calls h ++ [CallRemoveKernelSpec "qudi"] in
  uninstall_kernel henv h y
  = match remove_kernel_spec_outcome henv "qudi" with
    | Return _ =>
        (Return tt,
         {| stdout := started
              ++ ["> Successfully uninstalled kernelspec " +:+ dquote +:+ "qudi"
                  +:+ dquote];
            calls := called |}, y)
    | Raise e =>
        if isinstance e KeyError
        then (Return tt,
              {| stdout := started
                   ++ ["> No kernelspec " +:+ dquote +:+ "qudi" +:+ dquote
                       +:+ " found"];
                 calls := called |}, y)
        else (Raise e, {| stdout := started; calls := called |}, y)
    end.
Proof.
  intros Himport started called. subst started called.
  unfold uninstall_kernel, try_except_else, bind, print, host, of_result.
  rewrite Himport. simpl.
  destruct (remove_kernel_spec_outcome henv "qudi") as [p|e]; simpl; [done|].
  by destruct (isinstance e KeyError).
Qed.

(** X27.  The entry point touches the file system and the kernelspec
    registry only for the exact command lines [prog install] and
    [prog uninstall]: with any other arguments, a further argument after
    the command included, the only call it can make is the launch of the
    kernel application. *)
Theorem main_launches_unless_command (sys_argv : list string) h y :
  (∀ prog, sys_argv ≠ [prog; "install"]) →
  (∀ prog, sys_argv ≠ [prog; "uninstall"]) →
  calls (receiver (main henv sys_argv h y)) = calls h
  ∨ calls (receiver (main henv sys_argv h y)) = calls h ++ [CallLaunchInstance].
Proof.
  intros Hinst Huninst. unfold main.
  destruct (bool_decide (length sys_argv = 2%nat)
            && bool_decide (sys_argv !! 1%nat = Some "install")) eqn:H1.
  { apply andb_true_iff in H1 as [Hlen Hcmd].
    apply bool_decide_eq_true in Hlen, Hcmd.
    destruct sys_argv as [|prog [|cmd [|? ?]]]; try done.
    simpl in Hcmd. injection Hcmd as ->. by destruct (Hinst prog). }
  destruct (bool_decide (length sys_argv = 2%nat)
            && bool_decide (sys_argv !! 1%nat = Some "uninstall")) eqn:H2.
  { apply andb_true_iff in H2 as [Hlen Hcmd].
    apply bool_decide_eq_true in Hlen, Hcmd.
    destruct sys_argv as [|prog [|cmd [|? ?]]]; try done.
    simpl in Hcmd. injection Hcmd as ->. by destruct (Huninst prog). }
  unfold receiver, bind, of_result, host.
  destruct (import_kernelapp_outcome henv); simpl; [by right|by left].
Qed.

End InstallerProperties.

(** * The further properties at concrete inputs *)

Lemma get_active_modules_returns_remote_answer_witness :
  get_active_modules
    (Examples.server_with (Return Examples.config0) None (Return Examples.modules0))
    Examples.client0 Examples.sys_start
  = (Return Examples.modules0, Examples.client0,
     emit (EvRemoteQuery Examples.link0) Examples.sys_start).
Proof.
  apply (get_active_modules_returns_remote_answer
           (Examples.server_with (Return Examples.config0) None
              (Return Examples.modules0))
           Examples.client0 Examples.sys_start Examples.link0 Examples.modules0);
    reflexivity.
Defined.

Lemma get_active_modules_raises_no_connection_loss_witness :
  outcome (get_active_modules
             (Examples.server_with (Return Examples.config0) None (Raise ValueError))
             Examples.client0 Examples.sys_start)
  = Raise ValueError
  ∧ isinstance ValueError ConnectionError = false
  ∧ receiver (get_active_modules
                (Examples.server_with (Return Examples.config0) None (Raise ValueError))
                Examples.client0 Examples.sys_start)
    = Examples.client0.
Proof.
  split; [reflexivity|].
  pose proof (get_active_modules_raises_no_connection_loss
                (Examples.server_with (Return Examples.config0) None (Raise ValueError))
                Examples.client0 Examples.sys_start ValueError eq_refl)
    as (H1 & _ & H3 & _).
  split; [exact H1 | exact H3].
Defined.

Lemma get_active_modules_catches_subclasses_witness :
  connection_lost BrokenPipeError = true
  ∧ outcome (get_active_modules
               (Examples.server_with (Return Examples.config0) None
                  (Raise (UserClass "ServerGone" BrokenPipeError)))
               Examples.client0 Examples.sys_start)
    = Return ∅.
Proof.
  split; [reflexivity|].
  apply (get_active_modules_catches_subclasses
           (Examples.server_with (Return Examples.config0) None
              (Raise (UserClass "ServerGone" BrokenPipeError)))
           Examples.client0 Examples.sys_start Examples.link0
           "ServerGone" BrokenPipeError);
    reflexivity.
Defined.

Lemma connect_load_failure_witness :
  connect (Examples.server_with (Raise ValueError) None (Return Examples.modules0))
    Examples.client0 Examples.sys_start
  = (Raise ValueError, Examples.client0,
     emit (EvLoadConfig "default.cfg" false) Examples.sys_start).
Proof.
  apply (connect_load_failure
           (Examples.server_with (Raise ValueError) None (Return Examples.modules0))
           Examples.client0 Examples.sys_start ValueError).
  reflexivity.
Defined.

Lemma connect_then_get_active_modules_witness :
  outcome
    (get_active_modules
       (Examples.server_with (Return Examples.config0) None (Return Examples.modules0))
       (receiver
          (connect
             (Examples.server_with (Return Examples.config0) None
                (Return Examples.modules0))
             QudiKernelClient_init Examples.sys_start))
       (outside
          (connect
             (Examples.server_with (Return Examples.config0) None
                (Return Examples.modules0))
             QudiKernelClient_init Examples.sys_start)))
  = Return Examples.modules0.
Proof.
  apply (connect_then_get_active_modules
           (Examples.server_with (Return Examples.config0) None
              (Return Examples.modules0))
           (Examples.server_with (Return Examples.config0) None
              (Return Examples.modules0))
           QudiKernelClient_init Examples.sys_start Examples.config0
           Examples.modules0);
    reflexivity.
Defined.

Lemma do_execute_aborts_on_other_errors_witness :
  connection_lost ValueError = false
  ∧ do_execute
      (Examples.server_with (Return Examples.config0) None (Raise ValueError))
      (Examples.kernel_of (Some Examples.link0)) Examples.sys_start
    = (Raise ValueError, Examples.kernel_of (Some Examples.link0),
       emit (EvRemoteQuery Examples.link0) Examples.sys_start).
Proof.
  split; [reflexivity|].
  apply (do_execute_aborts_on_other_errors
           (Examples.server_with (Return Examples.config0) None (Raise ValueError))
           (Examples.kernel_of (Some Examples.link0)) Examples.sys_start
           Examples.link0 ValueError);
    reflexivity.
Defined.

Lemma do_execute_survives_connection_loss_witness :
  connection_lost ConnectionResetError = true
  ∧ outcome
      (do_execute
         (Examples.server_with (Return Examples.config0) None
            (Raise ConnectionResetError))
         (Examples.kernel_of (Some Examples.link0)) Examples.sys_start)
    = Return tt.
Proof.
  split; [reflexivity|].
  apply (do_execute_survives_connection_loss
           (Examples.server_with (Return Examples.config0) None
              (Raise ConnectionResetError))
           (Examples.kernel_of (Some Examples.link0)) Examples.sys_start
           Examples.link0 ConnectionResetError);
    reflexivity.
Defined.

Lemma update_module_namespace_lookup_witness :
  user_ns
    (receiver
       (update_module_namespace
          (Examples.server_with (Return Examples.config0) None
             (Return Examples.modules0))
          (Examples.kernel_of (Some Examples.link0)) Examples.sys_start))
  !! "b"
  = Some 20.
Proof.
  rewrite (update_module_namespace_lookup
             (Examples.server_with (Return Examples.config0) None
                (Return Examples.modules0))
             (Examples.kernel_of (Some Examples.link0)) Examples.sys_start
             Examples.modules0 "b")
    by reflexivity.
  reflexivity.
Defined.

Lemma update_module_namespace_then_dropped_witness :
  user_ns
    (receiver
       (update_module_namespace
          (Examples.server_with (Return Examples.config0) None (Return {[ "b" := 21 ]}))
          (receiver
             (update_module_namespace
                (Examples.server_with (Return Examples.config0) None
                   (Return Examples.modules0))
                (Examples.kernel_of (Some Examples.link0)) Examples.sys_start))
          (outside
             (update_module_namespace
                (Examples.server_with (Return Examples.config0) None
                   (Return Examples.modules0))
                (Examples.kernel_of (Some Examples.link0)) Examples.sys_start))))
  !! "d"
  = None.
Proof.
  rewrite (update_module_namespace_then_dropped
             (Examples.server_with (Return Examples.config0) None
                (Return Examples.modules0))
             (Examples.server_with (Return Examples.config0) None
                (Return {[ "b" := 21 ]}))
             (Examples.kernel_of (Some Examples.link0)) Examples.sys_start
             Examples.modules0 {[ "b" := 21 ]} "d")
    by reflexivity.
  reflexivity.
Defined.

Lemma update_module_namespace_offline_witness :
  outside
    (update_module_namespace
       (Examples.server_with (Return Examples.config0) None (Return Examples.modules0))
       (Examples.kernel_of None) Examples.sys_start)
  = Examples.sys_start.
Proof.
  rewrite (update_module_namespace_offline
             (Examples.server_with (Return Examples.config0) None
                (Return Examples.modules0))
             (Examples.kernel_of None) Examples.sys_start)
    by (left; reflexivity).
  reflexivity.
Defined.

Lemma no_reconnection_after_connection_loss_witness :
  connection_lost BrokenPipeError = true
  ∧ outcome
      (update_module_namespace
         (Examples.server_with (Return Examples.config0) None (Raise BrokenPipeError))
         (Examples.kernel_of (Some Examples.link0)) Examples.sys_start)
    = Return tt.
Proof.
  split; [reflexivity|].
  apply (no_reconnection_after_connection_loss
           (Examples.server_with (Return Examples.config0) None
              (Raise BrokenPipeError))
           (Examples.server_with (Return Examples.config0) None
              (Return Examples.modules0))
           (Examples.kernel_of (Some Examples.link0)) Examples.sys_start
           Examples.link0 BrokenPipeError);
    reflexivity.
Defined.

Lemma for_each_user_ns_pop_order_witness :
  for_each ["a"; "b"] user_ns_pop (Examples.kernel_of None) Examples.sys_start
  = for_each ["b"; "a"; "a"] user_ns_pop (Examples.kernel_of None) Examples.sys_start.
Proof.
  apply (for_each_user_ns_pop_order ["a"; "b"] ["b"; "a"; "a"]).
  intros name. rewrite !elem_of_cons, !elem_of_nil. tauto.
Defined.

Lemma kernel_init_connection_refused_witness :
  QudiIPythonKernel_init
    (Examples.server_with (Return Examples.config0) (Some ConnectionRefusedError)
       (Return Examples.modules0))
    Examples.run_cell0 {[ "c" := 3 ]} Examples.sys_start
  = (Raise ConnectionRefusedError,
     after_connect
       (Examples.server_with (Return Examples.config0) (Some ConnectionRefusedError)
          (Return Examples.modules0))
       Examples.config0 Examples.sys_start).
Proof.
  apply (kernel_init_connection_refused
           (Examples.server_with (Return Examples.config0)
              (Some ConnectionRefusedError) (Return Examples.modules0))
           Examples.run_cell0 {[ "c" := 3 ]} Examples.sys_start Examples.config0);
    reflexivity.
Defined.

Lemma kernel_init_success_witness :
  QudiIPythonKernel_init
    (Examples.server_with (Return Examples.config0) None (Return Examples.modules0))
    Examples.run_cell0 {[ "c" := 3 ]} Examples.sys_start
  = (Return
       {| kernel :=
            {| _qudi_client :=
                 {| service_instance :=
                      {| _background_server := Some {| bg_conn := Examples.link0 |} |};
                    connection := Some Examples.link0 |};
               _namespace_qudi_modules := {[ "b"; "d" ]};
               user_ns := {[ "_" := 0; "b" := 20; "c" := 3; "d" := 40 ]} |};
          config := {| IPCompleter_use_jedi := false;
                       PlainTextFormatter_pprint := false;
                       BaseFormatter_enabled := false |} |},
     {| saved_config := None;
        trace := [EvLoadConfig "default.cfg" false; EvConnect "localhost" 18861;
                  EvLog "Qudi IPython kernel connected to local module service.";
                  EvStartReceiver Examples.link0;
                  EvRemoteQuery Examples.link0] |}).
Proof.
  rewrite (kernel_init_success
             (Examples.server_with (Return Examples.config0) None
                (Return Examples.modules0))
             Examples.run_cell0 {[ "c" := 3 ]} Examples.sys_start Examples.config0
             Examples.modules0)
    by reflexivity.
  by vm_compute.
Defined.

Lemma kernel_init_connection_lost_witness :
  connection_lost EOFError = true
  ∧ ∃ obj y',
      QudiIPythonKernel_init
        (Examples.server_with (Return Examples.config0) None (Raise EOFError))
        Examples.run_cell0 {[ "c" := 3 ]} Examples.sys_start
      = (Return obj, y')
      ∧ connection (_qudi_client (kernel obj)) = None.
Proof.
  split; [reflexivity|].
  destruct (kernel_init_connection_lost
              (Examples.server_with (Return Examples.config0) None (Raise EOFError))
              Examples.run_cell0 {[ "c" := 3 ]} Examples.sys_start Examples.config0
              EOFError eq_refl eq_refl eq_refl eq_refl)
    as (obj & y' & H1 & H2 & _).
  exists obj, y'. split; [exact H1 | exact H2].
Defined.

Lemma kernel_init_query_error_witness :
  connection_lost TimeoutError = false
  ∧ QudiIPythonKernel_init
      (Examples.server_with (Return Examples.config0) None (Raise TimeoutError))
      Examples.run_cell0 {[ "c" := 3 ]} Examples.sys_start
    = (Raise TimeoutError,
       {| saved_config := None;
          trace := [EvLoadConfig "default.cfg" false; EvConnect "localhost" 18861;
                    EvLog "Qudi IPython kernel connected to local module service.";
                    EvStartReceiver Examples.link0;
                    EvRemoteQuery Examples.link0] |}).
Proof.
  split; [reflexivity|].
  rewrite (kernel_init_query_error
             (Examples.server_with (Return Examples.config0) None
                (Raise TimeoutError))
             Examples.run_cell0 {[ "c" := 3 ]} Examples.sys_start Examples.config0
             TimeoutError)
    by reflexivity.
  reflexivity.
Defined.

Lemma install_kernel_removes_tempdir_witness :
  outcome
    (install_kernel
       (Examples.host_with (Return "/tmp/qudi_kernels") (Raise OSError) (Return tt)
          (Return "dest") (Return "dest") (Return tt))
       Examples.fresh_host Examples.sys_start)
  = Raise OSError
  ∧ last
      (calls
         (receiver
            (install_kernel
               (Examples.host_with (Return "/tmp/qudi_kernels") (Raise OSError)
                  (Return tt) (Return "dest") (Return "dest") (Return tt))
               Examples.fresh_host Examples.sys_start)))
    = Some (CallRmtree "/tmp/qudi_kernels").
Proof.
  split; [reflexivity|].
  apply (install_kernel_removes_tempdir
           (Examples.host_with (Return "/tmp/qudi_kernels") (Raise OSError)
              (Return tt) (Return "dest") (Return "dest") (Return tt))
           Examples.fresh_host Examples.sys_start "/tmp/qudi_kernels");
    reflexivity.
Defined.

Lemma install_kernel_mkdtemp_failure_witness :
  install_kernel
    (Examples.host_with (Raise OSError) (Return tt) (Return tt) (Return "dest")
       (Return "dest") (Return tt))
    Examples.fresh_host Examples.sys_start
  = (Raise UnboundLocalError,
     {| stdout := ["> Installing qudi kernel..."];
        calls := [CallMkdtemp "_kernels"] |},
     Examples.sys_start).
Proof.
  apply (install_kernel_mkdtemp_failure
           (Examples.host_with (Raise OSError) (Return tt) (Return tt)
              (Return "dest") (Return "dest") (Return tt))
           Examples.fresh_host Examples.sys_start OSError);
    reflexivity.
Defined.

Lemma install_kernel_success_witness :
  outcome (install_kernel Examples.host_ok Examples.fresh_host Examples.sys_start)
  = Return tt
  ∧ calls (receiver (install_kernel Examples.host_ok Examples.fresh_host
                       Examples.sys_start))
    = [CallMkdtemp "_kernels";
       CallMkdir "/tmp/qudi_kernels/qudi";
       CallDumpJson "/tmp/qudi_kernels/qudi/kernel.json"
         {| argv := ["/usr/bin/python3"; "/opt/qudi/core/qudikernel.py"; "-f";
                     "{connection_file}"];
            display_name := "qudi";
            language := "python" |} 1;
       CallInstallKernelSpec "/tmp/qudi_kernels/qudi" "qudi" true;
       CallRmtree "/tmp/qudi_kernels"].
Proof.
  rewrite (install_kernel_success Examples.host_ok Examples.fresh_host
             Examples.sys_start "/tmp/qudi_kernels"
             "/home/user/.local/share/jupyter/kernels/qudi")
    by reflexivity.
  split; reflexivity.
Defined.

Lemma install_kernel_cleanup_failure_witness :
  install_kernel_spec_outcome
    (Examples.host_with (Return "/tmp/qudi_kernels") (Return tt) (Return tt)
       (Return "dest") (Return "dest") (Raise OSError))
    "/tmp/qudi_kernels/qudi"
  = Return "dest"
  ∧ outcome
      (install_kernel
         (Examples.host_with (Return "/tmp/qudi_kernels") (Return tt) (Return tt)
            (Return "dest") (Return "dest") (Raise OSError))
         Examples.fresh_host Examples.sys_start)
    = Raise OSError.
Proof.
  split; [reflexivity|].
  apply (install_kernel_cleanup_failure
           (Examples.host_with (Return "/tmp/qudi_kernels") (Return tt) (Return tt)
              (Return "dest") (Return "dest") (Raise OSError))
           Examples.fresh_host Examples.sys_start "/tmp/qudi_kernels" OSError);
    reflexivity.
Defined.

Lemma install_kernel_returns_only_on_success_witness :
  outcome (install_kernel Examples.host_ok Examples.fresh_host Examples.sys_start)
  = Return tt
  ∧ import_kernelspec_outcome Examples.host_ok = Return tt.
Proof.
  split; [reflexivity|].
  apply (install_kernel_returns_only_on_success Examples.host_ok Examples.fresh_host
           Examples.sys_start).
  reflexivity.
Defined.

Lemma uninstall_kernel_outcomes_witness :
  isinstance Examples.NoSuchKernel KeyError = true
  ∧ outcome
      (uninstall_kernel
         (Examples.host_with (Return "/tmp/qudi_kernels") (Return tt) (Return tt)
            (Return "dest") (Raise Examples.NoSuchKernel) (Return tt))
         Examples.fresh_host Examples.sys_start)
    = Return tt.
Proof.
  split; [reflexivity|].
  rewrite (uninstall_kernel_outcomes
             (Examples.host_with (Return "/tmp/qudi_kernels") (Return tt)
                (Return tt) (Return "dest") (Raise Examples.NoSuchKernel)
                (Return tt))
             Examples.fresh_host Examples.sys_start)
    by reflexivity.
  reflexivity.
Defined.

Lemma main_launches_unless_command_witness :
  calls
    (receiver
       (main Examples.host_ok ["qudikernel.py"; "install"; "--user"]
          Examples.fresh_host Examples.sys_start))
  = [CallLaunchInstance].
Proof.
  destruct (main_launches_unless_command Examples.host_ok
              ["qudikernel.py"; "install"; "--user"]
              Examples.fresh_host Examples.sys_start)
    as [H|H]; [by intros prog | by intros prog | | exact H].
  vm_compute in H. discriminate H.
Defined.

Lemma connect_never_closes_witness :
  ∃ evs,
    trace (outside (connect
                      (Examples.server_with (Return Examples.config0) None
                         (Return Examples.modules0))
                      Examples.client0 Examples.sys_start))
    = trace Examples.sys_start ++ evs
    ∧ EvClose Examples.link0 ∉ evs.
Proof.
  destruct (connect_never_closes
              (Examples.server_with (Return Examples.config0) None
                 (Return Examples.modules0))
              Examples.client0 Examples.sys_start)
    as (evs & H1 & H2 & _).
  exists evs. split; [exact H1 | exact (H2 Examples.link0)].
Defined.

